(** * op_to_yaml: from a 1Password item to a Kubernetes Secret manifest

    A shallow embedding of [scripts/op_to_yaml.py] and the properties of
    its behaviour: what it writes to standard output and standard error,
    which subprocess it spawns and how it terminates.

    The script is a straight-line Python module.  Its effects (printing,
    spawning [op], leaving through [sys.exit] or through an exception that
    nobody catches) are modelled by a small state-and-error monad; the
    Python values it handles are modelled by the datatype [pyval]. *)

From Stdlib Require Import ZArith NArith Ascii String DecimalString.
From Stdlib.Strings Require Import Byte.
From Stdlib.Floats Require Import SpecFloat.
From stdpp Require Import base option list countable gmap.

Open Scope list_scope.
Set Warnings "-register-all".

(** ** Python strings and bytes *)

Module Py.

(** A Python [str] is a sequence of Unicode code points. *)
Definition pystr : Type := list N.

(** A literal of the script, given by its ASCII text. *)
Definition lit (s : string) : pystr := map N_of_ascii (list_ascii_of_string s).

(** The line feed that [print] appends. *)
Definition LF : N := 10%N.

(** *** [bytes.decode('utf-8')]

    The strict UTF-8 decoder: shortest-form sequences only, no surrogates,
    nothing above U+10FFFF.  [None] stands for [UnicodeDecodeError]. *)

Definition is_cont (b : N) : bool := (128 <=? b)%N && (b <=? 191)%N.

Definition cont_bits (b : N) : N := N.land b 63.

Definition cp2 (b0 b1 : N) : N :=
  N.lor (N.shiftl (N.land b0 31) 6) (cont_bits b1).

Definition cp3 (b0 b1 b2 : N) : N :=
  N.lor (N.shiftl (N.land b0 15) 12)
        (N.lor (N.shiftl (cont_bits b1) 6) (cont_bits b2)).

Definition cp4 (b0 b1 b2 b3 : N) : N :=
  N.lor (N.shiftl (N.land b0 7) 18)
        (N.lor (N.shiftl (cont_bits b1) 12)
               (N.lor (N.shiftl (cont_bits b2) 6) (cont_bits b3))).

Definition is_surrogate (c : N) : bool := (55296 <=? c)%N && (c <=? 57343)%N.

Fixpoint decode_utf8 (bs : list byte) : option pystr :=
  match bs with
  | [] => Some []
  | x0 :: t0 =>
    let b0 := Byte.to_N x0 in
    if (b0 <? 128)%N then cons b0 <$> decode_utf8 t0
    else if (192 <=? b0)%N && (b0 <? 224)%N then
      match t0 with
      | x1 :: t1 =>
        let b1 := Byte.to_N x1 in
        if is_cont b1 && (128 <=? cp2 b0 b1)%N
        then cons (cp2 b0 b1) <$> decode_utf8 t1
        else None
      | _ => None
      end
    else if (224 <=? b0)%N && (b0 <? 240)%N then
      match t0 with
      | x1 :: x2 :: t2 =>
        let b1 := Byte.to_N x1 in
        let b2 := Byte.to_N x2 in
        let c := cp3 b0 b1 b2 in
        if is_cont b1 && is_cont b2 && (2048 <=? c)%N && negb (is_surrogate c)
        then cons c <$> decode_utf8 t2
        else None
      | _ => None
      end
    else if (240 <=? b0)%N && (b0 <? 248)%N then
      match t0 with
      | x1 :: x2 :: x3 :: t3 =>
        let b1 := Byte.to_N x1 in
        let b2 := Byte.to_N x2 in
        let b3 := Byte.to_N x3 in
        let c := cp4 b0 b1 b2 b3 in
        if is_cont b1 && is_cont b2 && is_cont b3
           && (65536 <=? c)%N && (c <=? 1114111)%N
        then cons c <$> decode_utf8 t3
        else None
      | _ => None
      end
    else None
  end.

(** The bytes of an ASCII literal, as the pipe would carry them. *)
Definition ascii_bytes (s : string) : list byte := list_byte_of_string s.

(** *** [str.strip()]

    Without an argument, [strip] removes the characters for which
    [str.isspace] holds: the Unicode white space of CPython. *)

Definition isspace (c : N) : bool :=
  ((9 <=? c) && (c <=? 13)
   || (28 <=? c) && (c <=? 32)
   || (c =? 133) || (c =? 160) || (c =? 5760)
   || (8192 <=? c) && (c <=? 8202)
   || (c =? 8232) || (c =? 8233) || (c =? 8239) || (c =? 8287)
   || (c =? 12288))%N.

Fixpoint lstrip (s : pystr) : pystr :=
  match s with
  | [] => []
  | c :: t => if isspace c then lstrip t else s
  end.

Definition rstrip (s : pystr) : pystr := rev (lstrip (rev s)).

Definition strip (s : pystr) : pystr := rstrip (lstrip s).

(** Truth value of a [str]: the empty string is false. *)
Definition str_truthy (s : pystr) : bool :=
  match s with [] => false | _ :: _ => true end.

(** The slice [s[:n]]. *)
Definition slice_to (n : nat) (s : pystr) : pystr := take n s.

(** *** What standard output can encode

    [print] hands its text to the encoder of [sys.stdout], which raises
    [UnicodeEncodeError] on a character it cannot encode.  Which
    characters those are depends on the locale and on [PYTHONIOENCODING]:
    under UTF-8 with the [strict] handler every lone surrogate, under the
    C locale (handler [surrogateescape]) the surrogates outside
    U+DC80..U+DCFF.  ASCII is in every encoding Python uses for the
    standard streams; for the other characters the environment decides,
    through [stdout_encodes]. *)

Definition encodable (stdout_encodes : N -> bool) (c : N) : bool :=
  (c <? 128)%N || stdout_encodes c.

Definition printable (stdout_encodes : N -> bool) (s : pystr) : bool :=
  forallb (encodable stdout_encodes) s.

(** ** Python values

    What [json.loads] can return.  A [float] is a binary64 number, given
    by its sign, mantissa and exponent. *)

Inductive pyval : Type :=
| PNone
| PBool (b : bool)
| PInt (z : Z)
| PFloat (x : spec_float)
| PStr (s : pystr)
| PList (l : list pyval)
| PDict (d : list (pystr * pyval)).

(** Exceptions the script can meet. *)
Inductive exn : Type :=
| IndexError
| KeyError
| TypeError
| AttributeError
| UnicodeDecodeError
| UnicodeEncodeError
| ValueError
| RecursionError
| OtherError (name : string).

(** [str(z)] for an [int]. *)
Definition str_of_int (z : Z) : pystr := lit (NilZero.string_of_int (Z.to_int z)).

(** *** Dictionaries of the parsed document

    Keys of a JSON object are strings, and a Python [dict] keeps them in
    insertion order: an association list, read at the first binding. *)

Fixpoint assoc (k : pystr) (d : list (pystr * pyval)) : option pyval :=
  match d with
  | [] => None
  | (k', v) :: d' => if decide (k = k') then Some v else assoc k d'
  end.

(** [d[k] = v] on such a dictionary: an existing key keeps its place. *)
Fixpoint assoc_set (k : pystr) (v : pyval) (d : list (pystr * pyval))
  : list (pystr * pyval) :=
  match d with
  | [] => [(k, v)]
  | (k', v') :: d' =>
    if decide (k = k') then (k, v) :: d' else (k', v') :: assoc_set k v d'
  end.

(** *** Hashable values as dictionary keys

    [hash] raises [TypeError] on a list or a dict.  Equal keys are one
    key, and numbers compare by their exact value: [True == 1 == 1.0] and
    [False == 0 == 0.0 == -0.0], so a [bool] and a [float] with an
    integer value are filed under that integer; any other finite [float]
    is filed under its sign, odd mantissa and exponent.  [json.loads]
    returns one and the same object for every [NaN] of a document, and a
    dictionary finds a key that is the same object: [NaN] is one key. *)

Inductive hkey : Type :=
| HNone
| HInt (z : Z)
| HStr (s : pystr)
| HFrac (negative : bool) (m : positive) (e : Z)
| HInf (negative : bool)
| HNaN.

(** [m * 2^e] with the factors 2 of [m] moved into the exponent. *)
Fixpoint odd_part (m : positive) (e : Z) : positive * Z :=
  match m with
  | xO m' => odd_part m' (e + 1)
  | _ => (m, e)
  end.

Definition float_key (x : spec_float) : hkey :=
  match x with
  | S754_zero _ => HInt 0
  | S754_infinity s => HInf s
  | S754_nan => HNaN
  | S754_finite s m e =>
    match odd_part m e with
    | (m', e') =>
      if (0 <=? e')%Z
      then HInt (if s then - (Zpos m' * 2 ^ e') else Zpos m' * 2 ^ e')
      else HFrac s m' e'
    end
  end.

Definition hash_key (v : pyval) : exn + hkey :=
  match v with
  | PNone => inr HNone
  | PBool b => inr (HInt (if b then 1 else 0))
  | PInt z => inr (HInt z)
  | PFloat x => inr (float_key x)
  | PStr s => inr (HStr s)
  | PList _ | PDict _ => inl TypeError
  end.

#[global] Instance hkey_eq_dec : EqDecision hkey.
Proof. solve_decision. Defined.

Definition hkey_to_sum (k : hkey)
  : unit + (Z + (list N + (bool * positive * Z + (bool + unit)))) :=
  match k with
  | HNone => inl tt
  | HInt z => inr (inl z)
  | HStr s => inr (inr (inl s))
  | HFrac s m e => inr (inr (inr (inl (s, m, e))))
  | HInf s => inr (inr (inr (inr (inl s))))
  | HNaN => inr (inr (inr (inr (inr tt))))
  end.

Definition hkey_of_sum
           (x : unit + (Z + (list N + (bool * positive * Z + (bool + unit)))))
  : hkey :=
  match x with
  | inl _ => HNone
  | inr (inl z) => HInt z
  | inr (inr (inl s)) => HStr s
  | inr (inr (inr (inl (s, m, e)))) => HFrac s m e
  | inr (inr (inr (inr (inl s)))) => HInf s
  | inr (inr (inr (inr (inr _)))) => HNaN
  end.

#[global] Instance hkey_countable : Countable hkey.
Proof.
  apply (inj_countable' hkey_to_sum hkey_of_sum).
  intros []; reflexivity.
Defined.

(** [a == b] where [b] is a [str]: only an equal [str] is equal. *)
Definition eq_str (a : pyval) (s : pystr) : bool :=
  match a with
  | PStr t => bool_decide (t = s)
  | _ => false
  end.

End Py.

(** ** The process: effects of the script *)

Module Proc.
Import Py.

(** What [subprocess.run] hands back with both pipes captured. *)
Record CompletedProcess : Type := {
  returncode : Z;
  stdout : list byte;
  stderr : list byte
}.

(** What can be seen of a run from outside: each entry of [w_out] and of
    [w_err] is the text of one [print] call (the line feed that [print]
    appends is added by [render]), [w_spawned] lists the command lines
    handed to [subprocess.run], in order. *)
Record world : Type := {
  w_out : list pystr;
  w_err : list pystr;
  w_spawned : list (list pystr)
}.

Definition world0 : world := {| w_out := []; w_err := []; w_spawned := [] |}.

(** How the module stops early: [sys.exit], or an exception that
    propagates to the top level (the interpreter then writes its traceback
    to standard error, which the model records as [Raise e] and not as
    text). *)
Inductive halt : Type :=
| Exit (code : Z)
| Raise (e : exn).

(** The exit status the parent process sees: an uncaught exception gives 1. *)
Definition exit_status (h : halt) : Z :=
  match h with
  | Exit c => c
  | Raise _ => 1
  end.

(** A statement: from a world to a world, with a value or an early stop. *)
Definition prog (A : Type) : Type := world -> world * (halt + A).

Definition ret {A} (a : A) : prog A := fun w => (w, inr a).

Definition bind {A B} (m : prog A) (k : A -> prog B) : prog B :=
  fun w =>
    match m w with
    | (w', inr a) => k a w'
    | (w', inl h) => (w', inl h)
    end.

Definition raise {A} (e : exn) : prog A := fun w => (w, inl (Raise e)).

(** [print(s)]: the text goes to standard output when its encoder takes
    every character; otherwise nothing of it is written and
    [UnicodeEncodeError] is raised. *)
Definition print (stdout_encodes : N -> bool) (s : pystr) : prog unit :=
  fun w =>
    if printable stdout_encodes s
    then ({| w_out := w_out w ++ [s]; w_err := w_err w;
             w_spawned := w_spawned w |}, inr tt)
    else (w, inl (Raise UnicodeEncodeError)).

(** [print(s, file=sys.stderr)]: standard error replaces what it cannot
    encode by a backslash escape and never raises. *)
Definition eprint (s : pystr) : prog unit :=
  fun w => ({| w_out := w_out w; w_err := w_err w ++ [s];
               w_spawned := w_spawned w |}, inr tt).

(** [sys.exit(n)] with an integer status. *)
Definition sys_exit {A} (code : Z) : prog A := fun w => (w, inl (Exit code)).

(** [sys.exit(msg)] with a string: the message goes to standard error and
    the status is 1. *)
Definition sys_exit_msg {A} (msg : pystr) : prog A :=
  fun w => ({| w_out := w_out w; w_err := w_err w ++ [msg];
               w_spawned := w_spawned w |}, inl (Exit 1)).

(** The text of a stream: every [print] ends its text with a line feed. *)
Definition render (prints : list pystr) : pystr :=
  concat (map (fun s => s ++ [LF]) prints).

(** The module ran to its end: status 0. *)
Definition finish (r : world * (halt + unit)) : world * halt :=
  match r with
  | (w, inl h) => (w, h)
  | (w, inr _) => (w, Exit 0)
  end.

End Proc.

(** ** [json.loads]

    The decoder belongs to Python's library, not to the script, and the
    script depends on three things only: it returns a value, or raises
    [json.JSONDecodeError] (which the script catches), or raises something
    else (which it does not).  The script is therefore modelled over any
    function of type [pystr -> json_result].

    [loads] below follows the scanner of CPython's [json] module (control
    flow, messages and positions, the limit of 4300 digits on integers,
    correctly rounded floats) and instantiates the general statements at
    concrete documents.  The depth of nesting is not limited. *)

Module Json.
Import Py.

Inductive json_result : Type :=
| Parsed (v : pyval)
| DecodeError (msg : pystr)
| LoadsRaise (e : exn).

Inductive scan (A : Type) : Type :=
| Got (a : A) (rest : pystr) (pos : nat)
| Bad (msg : string) (pos : nat)
| Fail (e : exn).
Arguments Got {A}.
Arguments Bad {A}.
Arguments Fail {A}.

Definition is_ws (c : N) : bool :=
  ((c =? 32) || (c =? 9) || (c =? 10) || (c =? 13))%N.

Fixpoint skip_ws (s : pystr) (pos : nat) : pystr * nat :=
  match s with
  | c :: t => if is_ws c then skip_ws t (S pos) else (s, pos)
  | [] => (s, pos)
  end.

Definition is_digit (c : N) : bool := (48 <=? c)%N && (c <=? 57)%N.

(** *** Strings *)

Definition hex_digit (c : N) : option N :=
  if is_digit c then Some (c - 48)%N
  else if (97 <=? c)%N && (c <=? 102)%N then Some (c - 87)%N
  else if (65 <=? c)%N && (c <=? 70)%N then Some (c - 55)%N
  else None.

(** Four hexadecimal digits and what follows them. *)
Definition hex4 (s : pystr) : option (N * pystr) :=
  match s with
  | a :: b :: c :: d :: rest =>
    match hex_digit a, hex_digit b, hex_digit c, hex_digit d with
    | Some x, Some y, Some z, Some t =>
      Some (4096 * x + 256 * y + 16 * z + t, rest)%N
    | _, _, _, _ => None
    end
  | _ => None
  end.

(** The character of a one-letter escape. *)
Definition simple_escape (c : N) : option N :=
  if (c =? 34)%N then Some 34%N
  else if (c =? 92)%N then Some 92%N
  else if (c =? 47)%N then Some 47%N
  else if (c =? 98)%N then Some 8%N
  else if (c =? 102)%N then Some 12%N
  else if (c =? 110)%N then Some 10%N
  else if (c =? 114)%N then Some 13%N
  else if (c =? 116)%N then Some 9%N
  else None.

Definition is_high_surrogate (c : N) : bool := (55296 <=? c)%N && (c <=? 56319)%N.
Definition is_low_surrogate (c : N) : bool := (56320 <=? c)%N && (c <=? 57343)%N.

Definition join_surrogates (hi lo : N) : N :=
  (65536 + (hi - 55296) * 1024 + (lo - 56320))%N.

(** The characters of a string up to its closing quote; [start] is the
    position of the opening quote.  A [\u] escape needs its four digits
    and one more character after them; a high surrogate takes the [\u]
    escape that follows it when that is a low surrogate, and stands alone
    otherwise. *)
Fixpoint scan_string (fuel : nat) (start : nat) (s : pystr) (pos : nat)
         (acc : pystr) : scan pystr :=
  match fuel with
  | O => Fail RecursionError
  | S fuel =>
    match s with
    | [] => Bad "Unterminated string starting at" start
    | c :: t =>
      if (c =? 34)%N then Got (rev acc) t (S pos)
      else if (c =? 92)%N then
        match t with
        | [] => Bad "Unterminated string starting at" start
        | esc :: t' =>
          if (esc =? 117)%N then
            if negb (5 <=? length t')%nat
            then Bad "Invalid \uXXXX escape" (S pos)
            else
              match hex4 t' with
              | None => Bad "Invalid \uXXXX escape" (S pos)
              | Some (u, rest) =>
                match rest with
                | 92%N :: 117%N :: rest2 =>
                  if is_high_surrogate u && (7 <=? length rest)%nat then
                    match hex4 rest2 with
                    | None => Bad "Invalid \uXXXX escape" (pos + 7)
                    | Some (u2, rest3) =>
                      if is_low_surrogate u2
                      then scan_string fuel start rest3 (pos + 12)
                                       (join_surrogates u u2 :: acc)
                      else scan_string fuel start rest (pos + 6) (u :: acc)
                    end
                  else scan_string fuel start rest (pos + 6) (u :: acc)
                | _ => scan_string fuel start rest (pos + 6) (u :: acc)
                end
              end
          else
            match simple_escape esc with
            | Some ch => scan_string fuel start t' (pos + 2) (ch :: acc)
            | None => Bad "Invalid \escape" pos
            end
        end
      else if (c <? 32)%N then Bad "Invalid control character at" pos
      else scan_string fuel start t (S pos) (c :: acc)
    end
  end.

(** *** Numbers *)

(** A run of digits: its value, its length and what follows it. *)
Fixpoint scan_digits (s : pystr) (pos : nat) (acc : Z) (count : nat)
  : Z * nat * pystr * nat :=
  match s with
  | c :: t =>
    if is_digit c
    then scan_digits t (S pos) (10 * acc + Z.of_N (c - 48))%Z (S count)
    else (acc, count, s, pos)
  | [] => (acc, count, s, pos)
  end.

(** [float] of the decimal number [d * 10^k], rounded to the nearest
    binary64, ties to even. *)
Definition float_of_decimal (negative : bool) (d : Z) (k : Z) : spec_float :=
  match d with
  | Zpos m =>
    if (0 <=? k)%Z
    then binary_normalize 53 1024
           (if negative then - (d * 10 ^ k) else d * 10 ^ k)%Z 0 false
    else SFdiv 53 1024 (S754_finite negative m 0)
               (S754_finite false (Z.to_pos (10 ^ (- k))) 0)
  | _ => S754_zero negative
  end.

(** The fraction [.digits] at the head of [s], when there is one. *)
Definition scan_fraction (s : pystr) (pos : nat)
  : option (Z * nat * pystr * nat) :=
  match s with
  | 46%N :: d :: t =>
    if is_digit d then Some (scan_digits (d :: t) (S pos) 0 0) else None
  | _ => None
  end.

(** The exponent [e], sign, digits at the head of [s], when there is
    one. *)
Definition scan_exponent (s : pystr) (pos : nat) : option (Z * pystr * nat) :=
  match s with
  | e :: t =>
    if ((e =? 101) || (e =? 69))%N then
      match t with
      | sg :: d :: t' =>
        if ((sg =? 43) || (sg =? 45))%N && is_digit d then
          match scan_digits (d :: t') (pos + 2) 0 0 with
          | (x, _, rest, p) => Some (if (sg =? 45)%N then (- x)%Z else x, rest, p)
          end
        else if is_digit sg then
          match scan_digits t (S pos) 0 0 with
          | (x, _, rest, p) => Some (x, rest, p)
          end
        else None
      | d :: [] =>
        if is_digit d then
          match scan_digits t (S pos) 0 0 with
          | (x, _, rest, p) => Some (x, rest, p)
          end
        else None
      | [] => None
      end
    else None
  | [] => None
  end.

(** The largest number of digits that [int] converts from a string. *)
Definition max_str_digits : nat := 4300.

(** A number whose integer part starts at the head of [s]; the sign, if
    any, was read before.  [fail_at] is where the number started. *)
Definition scan_number (negative : bool) (s : pystr) (pos : nat)
           (fail_at : nat) : scan pyval :=
  match s with
  | c :: t =>
    if is_digit c then
      match (if (c =? 48)%N then (0%Z, 1, t, S pos) else scan_digits s pos 0 0) with
      | (ip, ni, r1, p1) =>
        match scan_fraction r1 p1 with
        | Some (fp, nf, r2, p2) =>
          match scan_exponent r2 p2 with
          | Some (x, r3, p3) =>
            Got (PFloat (float_of_decimal negative (ip * 10 ^ Z.of_nat nf + fp)
                                          (x - Z.of_nat nf))) r3 p3
          | None =>
            Got (PFloat (float_of_decimal negative (ip * 10 ^ Z.of_nat nf + fp)
                                          (- Z.of_nat nf))) r2 p2
          end
        | None =>
          match scan_exponent r1 p1 with
          | Some (x, r3, p3) =>
            Got (PFloat (float_of_decimal negative ip x)) r3 p3
          | None =>
            if (max_str_digits <? ni)%nat then Fail ValueError
            else Got (PInt (if negative then - ip else ip)) r1 p1
          end
        end
      end
    else Bad "Expecting value" fail_at
  | [] => Bad "Expecting value" fail_at
  end.

Fixpoint starts_with (p s : pystr) : option pystr :=
  match p, s with
  | [], _ => Some s
  | a :: p', b :: s' => if (a =? b)%N then starts_with p' s' else None
  | _ :: _, [] => None
  end.

(** *** Values *)

(** [scan_once], with the loops of [JSONArray] and [JSONObject].  Every
    call consumes a character before it calls again, so a fuel of twice
    the length of the document is never used up. *)
Fixpoint scan_value (fuel : nat) (s : pystr) (pos : nat) : scan pyval :=
  match fuel with
  | O => Fail RecursionError
  | S fuel =>
    match s with
    | [] => Bad "Expecting value" pos
    | c :: t =>
      if (c =? 34)%N then
        match scan_string (S (length t)) pos t (S pos) [] with
        | Got x rest pos' => Got (PStr x) rest pos'
        | Bad m p => Bad m p
        | Fail e => Fail e
        end
      else if (c =? 123)%N then
        match skip_ws t (S pos) with
        | (125%N :: rest, pos') => Got (PDict []) rest (S pos')
        | (t', pos') => scan_members fuel t' pos' []
        end
      else if (c =? 91)%N then
        match skip_ws t (S pos) with
        | (93%N :: rest, pos') => Got (PList []) rest (S pos')
        | (t', pos') => scan_elems fuel t' pos' []
        end
      else
        match starts_with (lit "null") s, starts_with (lit "true") s,
              starts_with (lit "false") s, starts_with (lit "NaN") s,
              starts_with (lit "Infinity") s, starts_with (lit "-Infinity") s
        with
        | Some rest, _, _, _, _, _ => Got PNone rest (pos + 4)
        | _, Some rest, _, _, _, _ => Got (PBool true) rest (pos + 4)
        | _, _, Some rest, _, _, _ => Got (PBool false) rest (pos + 5)
        | _, _, _, Some rest, _, _ => Got (PFloat S754_nan) rest (pos + 3)
        | _, _, _, _, Some rest, _ =>
          Got (PFloat (S754_infinity false)) rest (pos + 8)
        | _, _, _, _, _, Some rest =>
          Got (PFloat (S754_infinity true)) rest (pos + 9)
        | None, None, None, None, None, None =>
          if (c =? 45)%N then scan_number true t (S pos) pos
          else scan_number false s pos pos
        end
    end
  end

with scan_elems (fuel : nat) (s : pystr) (pos : nat) (acc : list pyval)
  : scan pyval :=
  match fuel with
  | O => Fail RecursionError
  | S fuel =>
    match scan_value fuel s pos with
    | Got v rest pos' =>
      match skip_ws rest pos' with
      | (93%N :: rest', p) => Got (PList (rev (v :: acc))) rest' (S p)
      | (44%N :: rest', p) =>
        match skip_ws rest' (S p) with
        | (s', p') => scan_elems fuel s' p' (v :: acc)
        end
      | (_, p) => Bad "Expecting ',' delimiter" p
      end
    | Bad m p => Bad m p
    | Fail e => Fail e
    end
  end

with scan_members (fuel : nat) (s : pystr) (pos : nat)
                  (acc : list (pystr * pyval)) : scan pyval :=
  match fuel with
  | O => Fail RecursionError
  | S fuel =>
    match s with
    | 34%N :: t =>
      match scan_string (S (length t)) pos t (S pos) [] with
      | Got key rest pos' =>
        match skip_ws rest pos' with
        | (58%N :: rest', p) =>
          match skip_ws rest' (S p) with
          | (s', p') =>
            match scan_value fuel s' p' with
            | Got v rest'' p'' =>
              match skip_ws rest'' p'' with
              | (125%N :: r, q) => Got (PDict (assoc_set key v acc)) r (S q)
              | (44%N :: r, q) =>
                match skip_ws r (S q) with
                | (s'', q') => scan_members fuel s'' q' (assoc_set key v acc)
                end
              | (_, q) => Bad "Expecting ',' delimiter" q
              end
            | Bad m p0 => Bad m p0
            | Fail e => Fail e
            end
          end
        | (_, p) => Bad "Expecting ':' delimiter" p
        end
      | Bad m p => Bad m p
      | Fail e => Fail e
      end
    | _ => Bad "Expecting property name enclosed in double quotes" pos
    end
  end.

(** The text of a [JSONDecodeError]:
    [msg: line L column C (char P)]. *)
Fixpoint line_col (doc : pystr) (pos : nat) (line col : nat) : nat * nat :=
  match pos, doc with
  | S pos', c :: t =>
    if (c =? 10)%N then line_col t pos' (S line) 1
    else line_col t pos' line (S col)
  | _, _ => (line, col)
  end.

Definition str_of_nat (n : nat) : pystr := str_of_int (Z.of_nat n).

Definition error_text (msg : string) (doc : pystr) (pos : nat) : pystr :=
  match line_col doc pos 1 1 with
  | (line, col) =>
    lit msg ++ lit ": line " ++ str_of_nat line ++ lit " column "
      ++ str_of_nat col ++ lit " (char " ++ str_of_nat pos ++ lit ")"
  end.

Definition loads (doc : pystr) : json_result :=
  match doc with
  | 65279%N :: _ =>
    DecodeError (error_text "Unexpected UTF-8 BOM (decode using utf-8-sig)" doc 0)
  | _ =>
    match skip_ws doc 0 with
    | (s, pos) =>
      match scan_value (2 * length doc + 2) s pos with
      | Got v rest pos' =>
        match skip_ws rest pos' with
        | ([], _) => Parsed v
        | (_ :: _, p) => DecodeError (error_text "Extra data" doc p)
        end
      | Bad m p => DecodeError (error_text m doc p)
      | Fail e => LoadsRaise e
      end
    end
  end.

End Json.

Declare Scope prog_scope.
Delimit Scope prog_scope with prog.
Notation "'let*' x ':=' m 'in' k" := (Proc.bind m (fun x => k))
  (at level 10, x name, m at level 100, k at level 200) : prog_scope.
Notation "m '>>' k" := (Proc.bind m (fun _ => k))
  (at level 100, k at level 200, right associativity) : prog_scope.

(** ** The script *)

Module Script.
Import Py Proc Json.
#[local] Open Scope prog_scope.

(** The double quote that the f-string of the last line writes around the
    value. *)
Definition DQUOTE : N := 34%N.

Section Script.

(** The outside of the script: the [op] executable behind
    [subprocess.run], the decoder behind [json.loads], [repr] for the
    floats, lists and dicts that an f-string may have to show, and the
    characters, ASCII apart, that the encoder of standard output takes. *)
Variable subprocess_run : list pystr -> CompletedProcess.
Variable json_loads : pystr -> json_result.
Variable py_repr : pyval -> pystr.
Variable stdout_encodes : N -> bool.

(** [sys.argv] *)
Variable argv : list pystr.

(** [sys.argv[i]] *)
Definition argv_at (i : nat) : prog pystr :=
  match argv !! i with
  | Some s => ret s
  | None => raise IndexError
  end.

(** [subprocess.run(cmd, stdout=subprocess.PIPE, stderr=subprocess.PIPE)] *)
Definition run_cmd (cmd : list pystr) : prog CompletedProcess :=
  fun w => ({| w_out := w_out w; w_err := w_err w;
               w_spawned := w_spawned w ++ [cmd] |}, inr (subprocess_run cmd)).

(** [b.decode('utf-8')] *)
Definition decode (b : list byte) : prog pystr :=
  match decode_utf8 b with
  | Some s => ret s
  | None => raise UnicodeDecodeError
  end.

(** [{v}] inside an f-string: [format(v, '')], that is [str(v)]. *)
Definition format_value (v : pyval) : pystr :=
  match v with
  | PNone => lit "None"
  | PBool true => lit "True"
  | PBool false => lit "False"
  | PInt z => str_of_int z
  | PStr s => s
  | PFloat _ | PList _ | PDict _ => py_repr v
  end.

(** [v[k]] with a [str] key: only a dict can be indexed by a string. *)
Definition subscript (v : pyval) (k : pystr) : prog pyval :=
  match v with
  | PDict d =>
    match assoc k d with
    | Some x => ret x
    | None => raise KeyError
    end
  | _ => raise TypeError
  end.

(** The items that [for ... in v] visits: the elements of a list, the
    characters of a string, the keys of a dict. *)
Definition iter (v : pyval) : prog (list pyval) :=
  match v with
  | PList l => ret l
  | PStr s => ret (map (fun c => PStr [c]) s)
  | PDict d => ret (map (fun kv => PStr (fst kv)) d)
  | PNone | PBool _ | PInt _ | PFloat _ => raise TypeError
  end.

(** [field.get(k)]: only a dict has the method. *)
Definition method_get (field : pyval) (k : pystr) : prog pyval :=
  match field with
  | PDict d => ret (default PNone (assoc k d))
  | _ => raise AttributeError
  end.

(** [key in dupecheck] *)
Definition contains (key : pyval) (dupecheck : gmap hkey pyval) : prog bool :=
  match hash_key key with
  | inr h => ret (bool_decide (is_Some (dupecheck !! h)))
  | inl e => raise e
  end.

(** [dupecheck[key] = value] *)
Definition setitem (key value : pyval) (dupecheck : gmap hkey pyval)
  : prog (gmap hkey pyval) :=
  match hash_key key with
  | inr h => ret (<[h := value]> dupecheck)
  | inl e => raise e
  end.

(** A [for] loop whose body updates a local variable of type [S]. *)
Fixpoint for_each {S : Type} (items : list pyval)
         (body : pyval -> S -> prog S) (s : S) : prog S :=
  match items with
  | [] => ret s
  | x :: rest => let* s' := body x s in for_each rest body s'
  end.

(** Lines 39 to 43. *)
Definition dupecheck_body (field : pyval) (dupecheck : gmap hkey pyval)
  : prog (gmap hkey pyval) :=
  let* key := method_get field (lit "label") in
  let* value := method_get field (lit "value") in
  let* dup := contains key dupecheck in
  if (dup : bool)
  then sys_exit_msg (lit "Error: duplicate key: " ++ format_value key)
  else setitem key value dupecheck.

(** The entry of [stringData] for a key and a value: two spaces, the key,
    a colon and a space, the value between double quotes. *)
Definition entry_line (key value : pyval) : pystr :=
  lit "  " ++ format_value key ++ lit ": "
    ++ [DQUOTE] ++ format_value value ++ [DQUOTE].

(** Lines 47 to 51. *)
Definition emit_body (field : pyval) (_ : unit) : prog unit :=
  let* key := method_get field (lit "label") in
  let* value := method_get field (lit "value") in
  let* type := method_get field (lit "type") in
  if eq_str type (lit "CONCEALED") && negb (eq_str key (lit "password"))
  then print stdout_encodes (entry_line key value)
  else ret tt.

(** The command line of line 13. *)
Definition op_command (vault_id item_name : pystr) : list pystr :=
  [lit "op"; lit "item"; lit "get"; item_name; lit "--reveal";
   lit "--vault"; vault_id; lit "--format"; lit "json"].

(** Lines 24 to 29. *)
Definition load_content (secret : pystr) : prog pyval :=
  match json_loads secret with
  | Parsed v => ret v
  | DecodeError e =>
    eprint (lit "Error parsing JSON response: " ++ e) >>
    eprint (lit "Raw response: " ++ slice_to 500 secret) >>
    sys_exit 1
  | LoadsRaise e => raise e
  end.

(** Lines 31 to 35. *)
Definition print_header (secret_name : pystr) : prog unit :=
  print stdout_encodes (lit "apiVersion: v1") >>
  print stdout_encodes (lit "kind: Secret") >>
  print stdout_encodes (lit "metadata:") >>
  print stdout_encodes (lit "  name: " ++ secret_name) >>
  print stdout_encodes (lit "stringData:").

(** Lines 37 to 43. *)
Definition check_duplicates (content : pyval) : prog (gmap hkey pyval) :=
  let* fields := subscript content (lit "fields") in
  let* items := iter fields in
  for_each items dupecheck_body ∅.

(** Lines 46 to 51. *)
Definition emit_fields (content : pyval) : prog unit :=
  let* fields := subscript content (lit "fields") in
  let* items := iter fields in
  for_each items emit_body tt.

(** Lines 31 to 51: everything after the response has been parsed. *)
Definition manifest (secret_name : pystr) (content : pyval) : prog unit :=
  print_header secret_name >>
  let* dupecheck := check_duplicates content in
  emit_fields content.

(** Lines 14 to 17. *)
Definition check_returncode (vault_id item_name : pystr)
           (result : CompletedProcess) : prog unit :=
  if negb (returncode result =? 0)%Z then
    eprint (lit "Error fetching item '" ++ item_name
              ++ lit "' from vault '" ++ vault_id ++ lit "':") >>
    let* err := decode (stderr result) in
    eprint err >>
    sys_exit 1
  else ret tt.

(** Lines 20 to 22. *)
Definition check_empty (item_name secret : pystr) : prog unit :=
  if negb (str_truthy (strip secret)) then
    eprint (lit "Error: Empty response from 1Password for item '"
              ++ item_name ++ lit "'") >>
    sys_exit 1
  else ret tt.

(** The module, top to bottom. *)
Definition main : prog unit :=
  let* vault_id := argv_at 1 in
  let* item_name := argv_at 2 in
  let* secret_name :=
    (if bool_decide (3 < length argv) then argv_at 3 else ret item_name) in
  let* result := run_cmd (op_command vault_id item_name) in
  check_returncode vault_id item_name result >>
  let* secret := decode (stdout result) in
  check_empty item_name secret >>
  let* content := load_content secret in
  manifest secret_name content.

(** One run of the script, from the empty world. *)
Definition run : world * halt := finish (main world0).

End Script.

(** *** The manifest in the words of the specification *)

(** The five lines that come before the entries. *)
Definition header (secret_name : pystr) : list pystr :=
  [lit "apiVersion: v1"; lit "kind: Secret"; lit "metadata:";
   lit "  name: " ++ secret_name; lit "stringData:"].

(** The three of them that come before the name. *)
Definition before_name : list pystr :=
  [lit "apiVersion: v1"; lit "kind: Secret"; lit "metadata:"].

(** A field of an item record: label, value and type tag, all strings. *)
Record Field : Type := {
  label : pystr;
  value : pystr;
  type : pystr
}.

(** A field is emitted when it is concealed and not labelled [password]. *)
Definition emitted (f : Field) : bool :=
  bool_decide (type f = lit "CONCEALED")
  && negb (bool_decide (label f = lit "password")).

(** Its entry: the label, and the value between double quotes, as it is. *)
Definition entry (f : Field) : pystr :=
  lit "  " ++ label f ++ lit ": " ++ [DQUOTE] ++ value f ++ [DQUOTE].

Definition stringData (fs : list Field) : list pystr :=
  map entry (filter (fun f => emitted f = true) fs).

(** A JSON object [o] carries the field [f]: other keys may be there too. *)
Definition carries (o : list (pystr * pyval)) (f : Field) : Prop :=
  assoc (lit "label") o = Some (PStr (label f))
  /\ assoc (lit "value") o = Some (PStr (value f))
  /\ assoc (lit "type") o = Some (PStr (type f)).

(** *** What the two loops read in a field object *)

(** [field.get(k)] on a dict. *)
Definition get (k : string) (o : list (pystr * pyval)) : pyval :=
  default PNone (assoc (lit k) o).

(** The keys under which the labels of [objs] are filed in [dupecheck]. *)
Definition label_keys (objs : list (list (pystr * pyval))) : list (exn + hkey) :=
  map (fun o => hash_key (get "label" o)) objs.

(** The test of line 50. *)
Definition concealed (o : list (pystr * pyval)) : bool :=
  eq_str (get "type" o) (lit "CONCEALED")
  && negb (eq_str (get "label" o) (lit "password")).

(** The entries of the objects that pass the test of line 50, as line 51
    formats them. *)
Definition object_entries (py_repr : pyval -> pystr)
           (objs : list (list (pystr * pyval))) : list pystr :=
  map (fun o => lit "  " ++ format_value py_repr (get "label" o) ++ lit ": "
                  ++ [DQUOTE] ++ format_value py_repr (get "value" o)
                  ++ [DQUOTE])
      (filter (fun o => concealed o = true) objs).

(** The name written under [metadata]: the third argument when there is
    one, the item name otherwise. *)
Definition name_of (item_name : pystr) (rest : list pystr) : pystr :=
  match rest with
  | [] => item_name
  | secret_name :: _ => secret_name
  end.

(** The diagnostics, as the script words them. *)
Definition fetch_message (vault_id item_name : pystr) : pystr :=
  lit "Error fetching item '" ++ item_name ++ lit "' from vault '"
    ++ vault_id ++ lit "':".

Definition empty_message (item_name : pystr) : pystr :=
  lit "Error: Empty response from 1Password for item '" ++ item_name ++ lit "'".

Definition parse_messages (e secret : pystr) : list pystr :=
  [lit "Error parsing JSON response: " ++ e;
   lit "Raw response: " ++ take 500 secret].

Definition dup_message (py_repr : pyval -> pystr) (key : pyval) : pystr :=
  lit "Error: duplicate key: " ++ format_value py_repr key.

(** [op] left with status 0 and its output, valid UTF-8 and not blank,
    was parsed by [json.loads] into [content]. *)
Definition retrieved (subprocess_run : list pystr -> CompletedProcess)
           (json_loads : pystr -> json_result)
           (vault_id item_name : pystr) (content : pyval) : Prop :=
  exists secret,
    returncode (subprocess_run (op_command vault_id item_name)) = 0%Z
    /\ decode_utf8 (stdout (subprocess_run (op_command vault_id item_name)))
       = Some secret
    /\ strip secret <> []
    /\ json_loads secret = Parsed content.

(** Where the parsed response is not an item record, and the exception
    that the first loop then meets: the response is not an object; it has
    no key [fields]; [fields] is not iterable ([None], a [bool], an [int]
    or a [float]); an item of [fields] is not an object, the items before
    it being objects with hashable, pairwise different labels. *)
Inductive shape_error : pyval -> exn -> Prop :=
| not_an_object v :
    (forall d, v <> PDict d) ->
    shape_error v TypeError
| no_fields d :
    assoc (lit "fields") d = None ->
    shape_error (PDict d) KeyError
| fields_not_iterable d f :
    assoc (lit "fields") d = Some f ->
    f = PNone \/ (exists b, f = PBool b) \/ (exists z, f = PInt z)
    \/ (exists x, f = PFloat x) ->
    shape_error (PDict d) TypeError
| item_not_an_object d f pre x post hs :
    assoc (lit "fields") d = Some f ->
    iter f world0 = (world0, inr (map PDict pre ++ x :: post)) ->
    label_keys pre = map inr hs ->
    NoDup hs ->
    (forall o, x <> PDict o) ->
    shape_error (PDict d) AttributeError.

(** The world after the [op] subprocess has been spawned and [out], [err]
    have been printed. *)
Definition after_op (vault_id item_name : pystr) (out err : list pystr)
  : world :=
  {| w_out := out; w_err := err;
     w_spawned := [op_command vault_id item_name] |}.

(** How a run ends when standard output cannot encode the name: the
    fourth [print] raises, after three lines. *)
Definition name_not_printed (vault_id item_name : pystr) : world * halt :=
  (after_op vault_id item_name before_name [], Raise UnicodeEncodeError).

End Script.

(** ** Concrete surroundings for the examples *)

Module Example.
Import Py Proc Json Script.

(** An [op] that answers every command with the same status and streams. *)
Definition op_answers (rc : Z) (out err : list byte)
  : list pystr -> CompletedProcess :=
  fun _ => {| returncode := rc; stdout := out; stderr := err |}.

(** A standard output under UTF-8 with the [strict] handler: everything
    but the surrogates. *)
Definition utf8_strict : N -> bool := fun c => negb (is_surrogate c).

(** A standard output under the C locale, handler [surrogateescape]: the
    surrogates U+DC80..U+DCFF go through as well. *)
Definition c_locale : N -> bool :=
  fun c => negb (is_surrogate c) || (56448 <=? c)%N && (c <=? 56575)%N.

(** A [repr] for the places where none is needed. *)
Definition any_repr : pyval -> pystr := fun _ => lit "<repr>".

(** JSON text written with apostrophes in the place of double quotes. *)
Definition json_bytes (s : string) : list byte :=
  map (fun b => if Byte.eqb b "'"%byte then x22 else b) (list_byte_of_string s).

(** The command line [op_to_yaml.py v1 db-creds]. *)
Definition argv_db_creds : list pystr :=
  [lit "op_to_yaml.py"; lit "v1"; lit "db-creds"].

(** The item of the round-trip example. *)
Definition db_creds_json : list byte :=
  json_bytes "{'fields': [{'label': 'username', 'value': 'admin', 'type': 'STRING'}, {'label': 'api_key', 'value': 'xyz123', 'type': 'CONCEALED'}, {'label': 'password', 'value': 'secret', 'type': 'CONCEALED'}]}".

Definition db_creds_fields : list Field :=
  [ {| label := lit "username"; value := lit "admin"; type := lit "STRING" |};
    {| label := lit "api_key"; value := lit "xyz123"; type := lit "CONCEALED" |};
    {| label := lit "password"; value := lit "secret"; type := lit "CONCEALED" |} ].

(** The object that [json.loads] builds for a field. *)
Definition field_object (f : Field) : list (pystr * pyval) :=
  [(lit "label", PStr (label f)); (lit "value", PStr (value f));
   (lit "type", PStr (type f))].

(** The record that [json.loads] builds from a list of fields. *)
Definition record_of (fs : list Field) : list (pystr * pyval) :=
  [(lit "fields", PList (map PDict (map field_object fs)))].

(** The text that a pipe carried, when it is UTF-8. *)
Definition text_of (b : list byte) : pystr := default [] (decode_utf8 b).

(** An item whose two fields share the label [token]. *)
Definition twice_json : list byte :=
  json_bytes "{'fields': [{'label': 'token', 'value': 'a', 'type': 'STRING'}, {'label': 'token', 'value': 'b', 'type': 'CONCEALED'}]}".

Definition twice_fields : list Field :=
  [ {| label := lit "token"; value := lit "a"; type := lit "STRING" |};
    {| label := lit "token"; value := lit "b"; type := lit "CONCEALED" |} ].




(** Responses that are JSON but no item record. *)
Definition no_fields_json : list byte := json_bytes "{'title': 'db-creds'}".

Definition empty_string_fields_json : list byte := json_bytes "{'fields': ''}".

(** Bytes that are not UTF-8. *)
Definition not_utf8 : list byte := [xff].

(** An item whose fields miss keys, or hold values that are no strings. *)
Definition loose_json : list byte :=
  json_bytes "{'fields': [{'label': 'a', 'type': 'CONCEALED'}, {'value': 'v', 'type': 'CONCEALED'}, {'label': 7, 'value': true, 'type': 'CONCEALED'}, {'label': 'b', 'value': 'w'}]}".

Definition loose_objects : list (list (pystr * pyval)) :=
  [ [(lit "label", PStr (lit "a")); (lit "type", PStr (lit "CONCEALED"))];
    [(lit "value", PStr (lit "v")); (lit "type", PStr (lit "CONCEALED"))];
    [(lit "label", PInt 7); (lit "value", PBool true);
     (lit "type", PStr (lit "CONCEALED"))];
    [(lit "label", PStr (lit "b")); (lit "value", PStr (lit "w"))] ].

(** An item with two fields that have no label. *)
Definition unlabelled_json : list byte :=
  json_bytes "{'fields': [{'value': 'a'}, {'label': 'x'}, {'value': 'b'}]}".

(** An item with a field whose label is a list. *)
Definition list_label_json : list byte :=
  json_bytes "{'fields': [{'label': 'x'}, {'label': ['y']}]}".

(** An item with a concealed value that is a lone surrogate, written as
    a [\u] escape. *)
Definition surrogate_json : list byte :=
  json_bytes "{'fields': [{'label': 'k', 'value': '\ud800', 'type': 'CONCEALED'}]}".

Definition surrogate_fields : list Field :=
  [ {| label := lit "k"; value := [55296%N]; type := lit "CONCEALED" |} ].

(** An item with float numbers: a label 1.0 after a label 1, and a
    fields that is 1.5. *)
Definition float_label_json : list byte :=
  json_bytes "{'fields': [{'label': 1, 'value': 'a'}, {'label': 1.0, 'value': 'b'}]}".

Definition float_fields_json : list byte := json_bytes "{'fields': 1.5}".

(** The command line [op_to_yaml.py v1 db-creds name], where the name
    holds a byte that is not UTF-8, as [sys.argv] shows it. *)
Definition argv_odd_name : list pystr :=
  [lit "op_to_yaml.py"; lit "v1"; lit "db-creds"; [110%N; 56575%N]].

(** An item without fields. *)
Definition empty_list_fields_json : list byte := json_bytes "{'fields': []}".

End Example.

(** ** Properties of the two loops *)

Module Loops.
Import Py Proc Json Script.

Section Loops.

Variable py_repr : pyval -> pystr.
Variable stdout_encodes : N -> bool.

Lemma for_each_app {S : Type} (l1 l2 : list pyval)
      (body : pyval -> S -> prog S) (s : S) (w : world) :
  for_each (l1 ++ l2) body s w =
  match for_each l1 body s w with
  | (w', inr s') => for_each l2 body s' w'
  | (w', inl h) => (w', inl h)
  end.
Proof.
  revert s w. induction l1 as [|x l1 IH]; intros s w; simpl.
  - reflexivity.
  - unfold bind. destruct (body x s w) as [w' [h|s']]; [reflexivity|].
    apply IH.
Qed.

(** One turn of the first loop on an object whose label is new. *)
Lemma dupecheck_body_fresh o h d w :
  hash_key (get "label" o) = inr h ->
  d !! h = None ->
  dupecheck_body py_repr (PDict o) d w = (w, inr (<[h := get "value" o]> d)).
Proof.
  intros Hk Hd. unfold dupecheck_body, bind, method_get, contains, setitem, ret.
  fold (get "label" o). fold (get "value" o). rewrite Hk. simpl.
  rewrite bool_decide_eq_false_2; [reflexivity|].
  rewrite Hd. intros [? ?]; discriminate.
Qed.

(** One turn of the first loop on an object whose label was seen. *)
Lemma dupecheck_body_seen o h d w :
  hash_key (get "label" o) = inr h ->
  is_Some (d !! h) ->
  dupecheck_body py_repr (PDict o) d w
  = ({| w_out := w_out w; w_err := w_err w ++ [dup_message py_repr (get "label" o)];
        w_spawned := w_spawned w |}, inl (Exit 1)).
Proof.
  intros Hk Hd. unfold dupecheck_body, bind, method_get, contains, ret.
  fold (get "label" o). fold (get "value" o). rewrite Hk. simpl.
  rewrite bool_decide_eq_true_2 by assumption. reflexivity.
Qed.

(** The first loop over objects with new, pairwise different labels runs
    to its end and prints nothing; [dupecheck] then holds their keys. *)
Lemma dupecheck_loop_ok objs : forall hs d w,
  label_keys objs = map inr hs ->
  NoDup hs ->
  (forall k, k ∈ hs -> d !! k = None) ->
  exists d',
    for_each (map PDict objs) (dupecheck_body py_repr) d w = (w, inr d')
    /\ (forall k, is_Some (d' !! k) <-> k ∈ hs \/ is_Some (d !! k)).
Proof.
  induction objs as [|o objs IH]; intros hs d w Hkeys Hnd Hfresh.
  - destruct hs; [|discriminate]. exists d. split; [reflexivity|].
    intros k. rewrite elem_of_nil. tauto.
  - destruct hs as [|h hs]; [discriminate|].
    simpl in Hkeys. injection Hkeys as Hh Hrest.
    apply NoDup_cons in Hnd as [Hnotin Hnd].
    simpl. unfold bind.
    rewrite (dupecheck_body_fresh o h d w Hh)
      by (apply Hfresh; left).
    destruct (IH hs (<[h := get "value" o]> d) w Hrest Hnd) as (d' & Hrun & Hdom).
    + intros k Hk. rewrite lookup_insert_ne.
      * apply Hfresh. right. exact Hk.
      * intros ->. contradiction.
    + exists d'. split; [exact Hrun|].
      intros k. rewrite Hdom, elem_of_cons.
      destruct (decide (h = k)) as [->|Hne].
      * rewrite lookup_insert_eq. split; [intros _; left; left; reflexivity|].
        intros _. right. eexists; reflexivity.
      * rewrite lookup_insert_ne by exact Hne. split.
        -- intros [?|?]; [left; right; assumption | right; assumption].
        -- intros [[?|?]|?]; [congruence | left; assumption | right; assumption].
Qed.

(** The first loop stops at the first object whose label was seen,
    whatever comes after it. *)
Lemma dupecheck_loop_dup pre o post hs h w :
  label_keys pre = map inr hs ->
  NoDup hs ->
  hash_key (get "label" o) = inr h ->
  h ∈ hs ->
  for_each (map PDict pre ++ PDict o :: post) (dupecheck_body py_repr) ∅ w
  = ({| w_out := w_out w; w_err := w_err w ++ [dup_message py_repr (get "label" o)];
        w_spawned := w_spawned w |}, inl (Exit 1)).
Proof.
  intros Hkeys Hnd Hk Hin.
  destruct (dupecheck_loop_ok pre hs ∅ w Hkeys Hnd) as (d' & Hrun & Hdom).
  { intros k _. apply lookup_empty. }
  rewrite for_each_app, Hrun. simpl. unfold bind.
  rewrite (dupecheck_body_seen o h d' w Hk); [reflexivity|].
  apply Hdom. left. exact Hin.
Qed.

(** The first loop stops with [AttributeError] at the first item that is
    not an object. *)
Lemma dupecheck_loop_not_object pre x post hs w :
  label_keys pre = map inr hs ->
  NoDup hs ->
  (forall o, x <> PDict o) ->
  for_each (map PDict pre ++ x :: post) (dupecheck_body py_repr) ∅ w
  = (w, inl (Raise AttributeError)).
Proof.
  intros Hkeys Hnd Hx.
  destruct (dupecheck_loop_ok pre hs ∅ w Hkeys Hnd) as (d' & Hrun & _).
  { intros k _. apply lookup_empty. }
  rewrite for_each_app, Hrun. simpl. unfold bind, dupecheck_body, bind.
  destruct x; try reflexivity. exfalso. eapply Hx. reflexivity.
Qed.

(** The second loop prints the entries of the concealed objects, in
    order, and nothing else, when standard output can encode them. *)
Lemma emit_loop objs : forall w,
  Forall (fun line => printable stdout_encodes line = true)
         (object_entries py_repr objs) ->
  for_each (map PDict objs) (emit_body py_repr stdout_encodes) tt w
  = ({| w_out := w_out w ++ object_entries py_repr objs;
        w_err := w_err w; w_spawned := w_spawned w |}, inr tt).
Proof.
  unfold object_entries.
  induction objs as [|o objs IH]; intros w Hp.
  - simpl. rewrite app_nil_r. destruct w; reflexivity.
  - simpl. unfold bind at 1. unfold emit_body at 1.
    unfold bind, method_get, ret.
    fold (get "label" o). fold (get "value" o). fold (get "type" o).
    fold (concealed o). rewrite filter_cons in Hp |- *.
    destruct (decide (concealed o = true)) as [Hc|Hc].
    + rewrite Hc. cbn [map] in Hp |- *. apply Forall_cons in Hp as [Ho Hp].
      unfold print, entry_line. rewrite Ho. rewrite (IH _ Hp).
      cbn [w_out w_err w_spawned]. rewrite <- app_assoc. reflexivity.
    + apply not_true_is_false in Hc. rewrite Hc. apply (IH _ Hp).
Qed.

End Loops.

End Loops.

(** ** The run, phase by phase *)

Module Phases.
Import Py Proc Json Script Loops.

Section Phases.

Variable subprocess_run : list pystr -> CompletedProcess.
Variable json_loads : pystr -> json_result.
Variable py_repr : pyval -> pystr.
Variable stdout_encodes : N -> bool.

(** Without both arguments the module stops at line 9 or 10. *)
Lemma run_too_few_arguments argv :
  length argv < 3 ->
  run subprocess_run json_loads py_repr stdout_encodes argv
  = (world0, Raise IndexError).
Proof.
  intros Hlen. destruct argv as [|a0 [|a1 [|a2 rest]]]; simpl in Hlen;
    try lia; reflexivity.
Qed.

(** With both, [op] is spawned with them and the rest works on its answer. *)
Lemma run_with_arguments prog vault item rest :
  run subprocess_run json_loads py_repr stdout_encodes
      (prog :: vault :: item :: rest)
  = finish
      (bind (check_returncode vault item
               (subprocess_run (op_command vault item)))
         (fun _ =>
            bind (decode (stdout (subprocess_run (op_command vault item))))
              (fun secret =>
                 bind (check_empty item secret)
                   (fun _ =>
                      bind (load_content json_loads secret)
                        (manifest py_repr stdout_encodes (name_of item rest)))))
         (after_op vault item [] [])).
Proof.
  unfold run, main. unfold bind at 1 2 3 4. unfold argv_at. simpl.
  destruct rest as [|name more].
  - rewrite bool_decide_eq_false_2 by (simpl; lia). reflexivity.
  - rewrite bool_decide_eq_true_2 by (simpl; lia). reflexivity.
Qed.

Lemma run_fetch_failed prog vault item rest :
  returncode (subprocess_run (op_command vault item)) <> 0%Z ->
  run subprocess_run json_loads py_repr stdout_encodes
      (prog :: vault :: item :: rest)
  = match decode_utf8 (stderr (subprocess_run (op_command vault item))) with
    | Some text =>
      (after_op vault item [] [fetch_message vault item; text], Exit 1)
    | None =>
      (after_op vault item [] [fetch_message vault item],
       Raise UnicodeDecodeError)
    end.
Proof.
  intros Hrc. rewrite run_with_arguments.
  unfold bind at 1. unfold check_returncode.
  apply Z.eqb_neq in Hrc. rewrite Hrc. simpl.
  unfold bind, eprint, decode. simpl.
  destruct (decode_utf8 _); reflexivity.
Qed.

Lemma run_fetched prog vault item rest :
  returncode (subprocess_run (op_command vault item)) = 0%Z ->
  run subprocess_run json_loads py_repr stdout_encodes
      (prog :: vault :: item :: rest)
  = match decode_utf8 (stdout (subprocess_run (op_command vault item))) with
    | None => (after_op vault item [] [], Raise UnicodeDecodeError)
    | Some secret =>
      match strip secret with
      | [] => (after_op vault item [] [empty_message item], Exit 1)
      | _ :: _ =>
        match json_loads secret with
        | Parsed content =>
          finish (manifest py_repr stdout_encodes (name_of item rest) content
                    (after_op vault item [] []))
        | DecodeError e =>
          (after_op vault item [] (parse_messages e secret), Exit 1)
        | LoadsRaise e => (after_op vault item [] [], Raise e)
        end
      end
    end.
Proof.
  intros Hrc. rewrite run_with_arguments.
  unfold bind at 1. unfold check_returncode. rewrite Hrc. simpl.
  unfold bind at 1. unfold decode.
  destruct (decode_utf8 _) as [secret|]; [|reflexivity]. simpl.
  unfold bind at 1. unfold check_empty.
  destruct (strip secret) as [|c s']; [reflexivity|]. simpl.
  unfold bind at 1. unfold load_content.
  destruct (json_loads secret); reflexivity.
Qed.

Lemma run_retrieved prog vault item rest content :
  retrieved subprocess_run json_loads vault item content ->
  run subprocess_run json_loads py_repr stdout_encodes
      (prog :: vault :: item :: rest)
  = finish (manifest py_repr stdout_encodes (name_of item rest) content
              (after_op vault item [] [])).
Proof.
  intros (secret & Hrc & Hdec & Hstrip & Hloads).
  rewrite (run_fetched _ _ _ _ Hrc), Hdec, Hloads.
  destruct (strip secret); [contradiction|reflexivity].
Qed.

(** The literals of the header are ASCII, so that the line of the name is
    printable exactly when the name is. *)
Lemma printable_name_line name :
  printable stdout_encodes (lit "  name: " ++ name)
  = printable stdout_encodes name.
Proof. reflexivity. Qed.

(** The header is printed before the fields are looked at, up to the name
    when standard output cannot encode it. *)
Lemma manifest_header name content w :
  manifest py_repr stdout_encodes name content w
  = if printable stdout_encodes name
    then bind (check_duplicates py_repr content)
              (fun _ => emit_fields py_repr stdout_encodes content)
              {| w_out := w_out w ++ header name; w_err := w_err w;
                 w_spawned := w_spawned w |}
    else ({| w_out := w_out w ++ before_name; w_err := w_err w;
             w_spawned := w_spawned w |}, inl (Raise UnicodeEncodeError)).
Proof.
  unfold manifest. unfold bind at 1. unfold print_header, bind, print.
  change (printable stdout_encodes (lit "apiVersion: v1")) with true.
  change (printable stdout_encodes (lit "kind: Secret")) with true.
  change (printable stdout_encodes (lit "metadata:")) with true.
  change (printable stdout_encodes (lit "stringData:")) with true.
  rewrite printable_name_line. cbn [w_out w_err w_spawned].
  destruct (printable stdout_encodes name); cbn [w_out w_err w_spawned].
  - unfold header. rewrite <- !app_assoc. reflexivity.
  - unfold before_name. rewrite <- !app_assoc. reflexivity.
Qed.

Lemma manifest_name_fails name content w :
  printable stdout_encodes name = false ->
  manifest py_repr stdout_encodes name content w
  = ({| w_out := w_out w ++ before_name; w_err := w_err w;
        w_spawned := w_spawned w |}, inl (Raise UnicodeEncodeError)).
Proof. intros Hp. rewrite manifest_header, Hp. reflexivity. Qed.

(** [iter] reads no state and changes none. *)
Lemma iter_pure f w : iter f w = (w, snd (iter f world0)).
Proof. destruct f; reflexivity. Qed.

(** A turn of the first loop leaves standard output alone. *)
Lemma dupecheck_body_out x d w :
  w_out (fst (dupecheck_body py_repr x d w)) = w_out w.
Proof.
  unfold dupecheck_body, bind, method_get, contains, setitem, ret, raise.
  destruct x; try reflexivity.
  destruct (hash_key _); [reflexivity|]. simpl.
  destruct (bool_decide _); reflexivity.
Qed.

(** The first loop leaves standard output alone, whatever the items. *)
Lemma dupecheck_loop_out items : forall d w,
  w_out (fst (for_each items (dupecheck_body py_repr) d w)) = w_out w.
Proof.
  induction items as [|x items IH]; intros d w; [reflexivity|].
  simpl. unfold bind.
  pose proof (dupecheck_body_out x d w) as Hbody.
  destruct (dupecheck_body py_repr x d w) as [w' [h|d']]; simpl in Hbody.
  - exact Hbody.
  - rewrite IH. exact Hbody.
Qed.

(** A turn of the second loop only adds to standard output. *)
Lemma emit_body_out x w :
  exists more,
    w_out (fst (emit_body py_repr stdout_encodes x tt w)) = w_out w ++ more.
Proof.
  assert (Hnil : exists more : list pystr, w_out w = w_out w ++ more)
    by (exists []; rewrite app_nil_r; reflexivity).
  unfold emit_body, bind, method_get, ret, raise, print.
  destruct x; try exact Hnil.
  destruct (_ && _); [|exact Hnil].
  destruct (printable _ _); [|exact Hnil].
  eexists. reflexivity.
Qed.

(** The second loop only adds to standard output. *)
Lemma emit_loop_out items : forall w,
  exists more,
    w_out (fst (for_each items (emit_body py_repr stdout_encodes) tt w))
    = w_out w ++ more.
Proof.
  induction items as [|x items IH]; intros w.
  - exists []. simpl. rewrite app_nil_r. reflexivity.
  - simpl. unfold bind.
    destruct (emit_body_out x w) as [m1 Hm1].
    destruct (emit_body py_repr stdout_encodes x tt w) as [w' [h|[]]];
      simpl in Hm1.
    + exists m1. exact Hm1.
    + destruct (IH w') as [m2 Hm2]. exists (m1 ++ m2).
      rewrite Hm2, Hm1, app_assoc. reflexivity.
Qed.

(** Looking for duplicates leaves standard output alone. *)
Lemma check_duplicates_out content w :
  w_out (fst (check_duplicates py_repr content w)) = w_out w.
Proof.
  unfold check_duplicates, bind, subscript.
  destruct content; try reflexivity.
  destruct (assoc _ d) as [f|]; [|reflexivity]. simpl.
  rewrite iter_pure. destruct (snd (iter f world0)) as [h|items];
    [reflexivity|]. apply dupecheck_loop_out.
Qed.

Lemma emit_fields_out content w :
  exists more,
    w_out (fst (emit_fields py_repr stdout_encodes content w))
    = w_out w ++ more.
Proof.
  assert (Hnil : exists more : list pystr, w_out w = w_out w ++ more)
    by (exists []; rewrite app_nil_r; reflexivity).
  unfold emit_fields, bind, subscript.
  destruct content; try exact Hnil.
  destruct (assoc _ d) as [f|]; [|exact Hnil]. simpl.
  rewrite iter_pure. destruct (snd (iter f world0)) as [h|items];
    [exact Hnil|]. apply emit_loop_out.
Qed.

(** Whatever the content, standard output starts with the header when the
    name can be printed. *)
Lemma manifest_out name content w :
  printable stdout_encodes name = true ->
  exists more,
    w_out (fst (manifest py_repr stdout_encodes name content w))
    = w_out w ++ header name ++ more.
Proof.
  intros Hp. rewrite manifest_header, Hp. unfold bind at 1.
  set (w1 := {| w_out := w_out w ++ header name; w_err := w_err w;
                w_spawned := w_spawned w |}).
  pose proof (check_duplicates_out content w1) as Hdup.
  destruct (check_duplicates py_repr content w1) as [w2 [h|d]];
    cbn [fst] in Hdup.
  - exists []. cbn [fst]. rewrite Hdup. unfold w1. cbn [w_out].
    rewrite app_nil_r. reflexivity.
  - destruct (emit_fields_out content w2) as [more Hmore]. exists more.
    rewrite Hmore, Hdup. unfold w1. cbn [w_out].
    rewrite <- app_assoc. reflexivity.
Qed.

(** The loops spawn nothing. *)
Lemma dupecheck_loop_spawned items : forall d w,
  w_spawned (fst (for_each items (dupecheck_body py_repr) d w)) = w_spawned w.
Proof.
  induction items as [|x items IH]; intros d w; [reflexivity|].
  simpl. unfold bind.
  assert (Hbody : w_spawned (fst (dupecheck_body py_repr x d w)) = w_spawned w).
  { unfold dupecheck_body, bind, method_get, contains, setitem, ret, raise.
    destruct x; try reflexivity.
    destruct (hash_key _); [reflexivity|]. simpl.
    destruct (bool_decide _); reflexivity. }
  destruct (dupecheck_body py_repr x d w) as [w' [h|d']]; simpl in Hbody.
  - exact Hbody.
  - rewrite IH. exact Hbody.
Qed.

Lemma emit_loop_spawned items : forall w,
  w_spawned (fst (for_each items (emit_body py_repr stdout_encodes) tt w))
  = w_spawned w.
Proof.
  induction items as [|x items IH]; intros w; [reflexivity|].
  simpl. unfold bind.
  assert (Hbody : w_spawned (fst (emit_body py_repr stdout_encodes x tt w))
                  = w_spawned w).
  { unfold emit_body, bind, method_get, ret, raise, print.
    destruct x; try reflexivity. destruct (_ && _); [|reflexivity].
    destruct (printable _ _); reflexivity. }
  destruct (emit_body py_repr stdout_encodes x tt w) as [w' [h|[]]];
    simpl in Hbody.
  - exact Hbody.
  - rewrite IH. exact Hbody.
Qed.

(** Nothing is spawned once the response is parsed. *)
Lemma manifest_spawned name content w :
  w_spawned (fst (manifest py_repr stdout_encodes name content w))
  = w_spawned w.
Proof.
  rewrite manifest_header.
  destruct (printable stdout_encodes name); [|reflexivity].
  unfold bind at 1.
  set (w1 := {| w_out := w_out w ++ header name; w_err := w_err w;
                w_spawned := w_spawned w |}).
  assert (Hdup : w_spawned (fst (check_duplicates py_repr content w1))
                 = w_spawned w1).
  { unfold check_duplicates, bind, subscript.
    destruct content; try reflexivity.
    destruct (assoc _ d) as [f|]; [|reflexivity]. simpl.
    rewrite iter_pure. destruct (snd (iter f world0)) as [h|items];
      [reflexivity|]. exact (dupecheck_loop_spawned items ∅ w1). }
  destruct (check_duplicates py_repr content w1) as [w2 [h|d]];
    cbn [fst] in Hdup; [exact Hdup|].
  change (w_spawned w) with (w_spawned w1). rewrite <- Hdup.
  unfold emit_fields, bind, subscript.
  destruct content; try reflexivity.
  destruct (assoc _ d0) as [f|]; [|reflexivity]. simpl.
  rewrite iter_pure. destruct (snd (iter f world0)) as [h|items];
    [reflexivity|]. apply emit_loop_spawned.
Qed.

Lemma fst_finish (r : world * (halt + unit)) : fst (finish r) = fst r.
Proof. destruct r as [w [h|u]]; reflexivity. Qed.

(** A blank text is stripped to nothing. *)
Lemma strip_blank secret :
  Forall (fun c => isspace c = true) secret -> strip secret = [].
Proof.
  intros Hall. unfold strip.
  assert (Hl : lstrip secret = []).
  { induction Hall as [|c t Hc _ IH]; [reflexivity|]. simpl.
    rewrite Hc. exact IH. }
  rewrite Hl. reflexivity.
Qed.

(** A record whose labels are hashable and pairwise different is
    printed whole, when standard output can encode its lines: header,
    then the concealed fields in order. *)
Lemma manifest_valid name top objs hs w :
  assoc (lit "fields") top = Some (PList (map PDict objs)) ->
  label_keys objs = map inr hs ->
  NoDup hs ->
  printable stdout_encodes name = true ->
  Forall (fun line => printable stdout_encodes line = true)
         (object_entries py_repr objs) ->
  manifest py_repr stdout_encodes name (PDict top) w
  = ({| w_out := w_out w ++ header name ++ object_entries py_repr objs;
        w_err := w_err w; w_spawned := w_spawned w |}, inr tt).
Proof.
  intros Hf Hkeys Hnd Hname Hlines. rewrite manifest_header, Hname.
  unfold bind at 1. unfold check_duplicates, bind, subscript.
  rewrite Hf. simpl.
  edestruct (dupecheck_loop_ok py_repr objs hs ∅) as (d' & -> & _);
    [exact Hkeys | exact Hnd | intros k _; apply lookup_empty |].
  unfold emit_fields, bind, subscript. rewrite Hf. simpl.
  rewrite (emit_loop _ _ _ _ Hlines). cbn [w_out w_err w_spawned].
  rewrite <- app_assoc. reflexivity.
Qed.

(** A repeated label stops the run after the header. *)
Lemma manifest_duplicate name top pre o post hs h w :
  assoc (lit "fields") top = Some (PList (map PDict pre ++ PDict o :: post)) ->
  label_keys pre = map inr hs ->
  NoDup hs ->
  hash_key (get "label" o) = inr h ->
  h ∈ hs ->
  printable stdout_encodes name = true ->
  manifest py_repr stdout_encodes name (PDict top) w
  = ({| w_out := w_out w ++ header name;
        w_err := w_err w ++ [dup_message py_repr (get "label" o)];
        w_spawned := w_spawned w |}, inl (Exit 1)).
Proof.
  intros Hf Hkeys Hnd Hk Hin Hname. rewrite manifest_header, Hname.
  unfold bind at 1. unfold check_duplicates, bind, subscript.
  rewrite Hf. simpl.
  rewrite (dupecheck_loop_dup py_repr pre o post hs h _ Hkeys Hnd Hk Hin).
  reflexivity.
Qed.

(** A response of the wrong shape stops the run after the header. *)
Lemma manifest_shape_error name content e w :
  shape_error content e ->
  printable stdout_encodes name = true ->
  manifest py_repr stdout_encodes name content w
  = ({| w_out := w_out w ++ header name; w_err := w_err w;
        w_spawned := w_spawned w |}, inl (Raise e)).
Proof.
  intros Hshape Hname. rewrite manifest_header, Hname.
  unfold bind at 1. unfold check_duplicates, bind, subscript.
  destruct Hshape as [v Hv | d Hd | d f Hd Hf | d f pre x post hs Hd Hit Hkeys Hnd Hx].
  - destruct v; try reflexivity. exfalso. eapply Hv. reflexivity.
  - rewrite Hd. reflexivity.
  - rewrite Hd. simpl.
    destruct Hf as [-> | [[b ->] | [[z ->] | [x ->]]]]; reflexivity.
  - rewrite Hd. simpl. rewrite iter_pure, Hit. simpl.
    rewrite (dupecheck_loop_not_object py_repr pre x post hs _ Hkeys Hnd Hx).
    reflexivity.
Qed.

End Phases.

(** A list is free of repetitions, or has a first repeated element. *)
Lemma first_repeat (hs : list hkey) :
  NoDup hs
  \/ exists pre h post, hs = pre ++ h :: post /\ NoDup pre /\ h ∈ pre.
Proof.
  induction hs as [|x l IH] using rev_ind.
  - left. constructor.
  - destruct IH as [Hnd | (pre & h & post & -> & Hnd & Hin)].
    + destruct (decide (x ∈ l)) as [Hin|Hout].
      * right. exists l, x, []. auto.
      * left. apply NoDup_app. split; [exact Hnd|]. split.
        -- intros y Hy Hyx. apply list_elem_of_singleton in Hyx. subst.
           contradiction.
        -- apply NoDup_singleton.
    + right. exists pre, h, (post ++ [x]). rewrite <- app_assoc. auto.
Qed.

(** The objects of a record split where their keys do. *)
Lemma label_keys_split objs pre_h h post_h :
  label_keys objs = map inr (pre_h ++ h :: post_h) ->
  exists pre o post,
    objs = pre ++ o :: post
    /\ label_keys pre = map inr pre_h
    /\ hash_key (get "label" o) = inr h.
Proof.
  unfold label_keys. rewrite map_app. simpl. intros H.
  apply map_eq_app in H as (pre & rest & -> & Hpre & Hrest).
  apply map_eq_cons in Hrest as (o & post & -> & Ho & _).
  exists pre, o, post. auto.
Qed.

End Phases.

(** ** The claims *)

Section Claims.
Import Py Proc Json Script Loops Phases.

Variable subprocess_run : list pystr -> CompletedProcess.
Variable json_loads : pystr -> json_result.
Variable py_repr : pyval -> pystr.
Variable stdout_encodes : N -> bool.

(** Objects that carry fields are filed under the fields' labels. *)
Lemma carries_label_keys objs fs :
  Forall2 carries objs fs ->
  label_keys objs = map inr (map (fun f => HStr (label f)) fs).
Proof.
  induction 1 as [|o f objs fs (Hl & _ & _) _ IH]; [reflexivity|].
  simpl. rewrite <- IH. unfold get. rewrite Hl. reflexivity.
Qed.

(** The second loop prints for such objects what [stringData] says. *)
Lemma carries_entries objs fs :
  Forall2 carries objs fs ->
  object_entries py_repr objs = stringData fs.
Proof.
  unfold stringData, object_entries.
  induction 1 as [|o f objs fs (Hl & Hv & Ht) _ IH]; [reflexivity|].
  rewrite !filter_cons.
  assert (Hc : concealed o = emitted f).
  { unfold concealed, emitted, get. rewrite Hl, Ht. reflexivity. }
  rewrite Hc. destruct (decide (emitted f = true)); [|exact IH].
  cbn [map]. rewrite IH. unfold get. rewrite Hl, Hv. reflexivity.
Qed.

(** [stringData], with the test and the entry written out. *)
Lemma stringData_unfold fs :
  stringData fs
  = map (fun f => lit "  " ++ label f ++ lit ": "
                    ++ [DQUOTE] ++ value f ++ [DQUOTE])
        (filter (fun f => type f = lit "CONCEALED"
                          /\ label f <> lit "password") fs).
Proof.
  unfold stringData. f_equal.
  apply list_filter_iff. intros f. unfold emitted.
  rewrite andb_true_iff, negb_true_iff, bool_decide_eq_true,
    bool_decide_eq_false. reflexivity.
Qed.

(** A record of fields with pairwise different labels is printed as the
    header followed by [stringData], when standard output can encode
    these lines. *)
Lemma run_item_record prog vault item rest top objs fs :
  retrieved subprocess_run json_loads vault item (PDict top) ->
  assoc (lit "fields") top = Some (PList (map PDict objs)) ->
  Forall2 carries objs fs ->
  NoDup (map label fs) ->
  Forall (fun line => printable stdout_encodes line = true)
         (header (name_of item rest) ++ stringData fs) ->
  run subprocess_run json_loads py_repr stdout_encodes
      (prog :: vault :: item :: rest)
  = (after_op vault item (header (name_of item rest) ++ stringData fs) [],
     Exit 0).
Proof.
  intros Hret Hf Hcar Hnd Hlines.
  apply Forall_app in Hlines as [Hhead Hlines].
  assert (Hname : printable stdout_encodes (name_of item rest) = true).
  { unfold header in Hhead. rewrite !Forall_cons in Hhead.
    destruct Hhead as (_ & _ & _ & Hn & _). exact Hn. }
  rewrite (run_retrieved _ _ _ _ _ _ _ _ _ Hret).
  rewrite (manifest_valid py_repr stdout_encodes _ top objs
             (map (fun f => HStr (label f)) fs)).
  - rewrite (carries_entries _ _ Hcar). reflexivity.
  - exact Hf.
  - apply carries_label_keys. exact Hcar.
  - rewrite <- (map_map label HStr).
    apply (@NoDup_fmap_2 _ _ HStr); [|exact Hnd].
    intros a b [= ->]. reflexivity.
  - exact Hname.
  - rewrite (carries_entries _ _ Hcar). exact Hlines.
Qed.

(** A repeated label ends the run after the header, with the diagnostic;
    when standard output cannot encode the name, the run ends at the
    name. *)
Lemma run_duplicate prog vault item rest top pre o post hs h :
  retrieved subprocess_run json_loads vault item (PDict top) ->
  assoc (lit "fields") top = Some (PList (map PDict pre ++ PDict o :: post)) ->
  label_keys pre = map inr hs ->
  NoDup hs ->
  hash_key (get "label" o) = inr h ->
  h ∈ hs ->
  run subprocess_run json_loads py_repr stdout_encodes
      (prog :: vault :: item :: rest)
  = if printable stdout_encodes (name_of item rest)
    then (after_op vault item (header (name_of item rest))
            [dup_message py_repr (get "label" o)], Exit 1)
    else name_not_printed vault item.
Proof.
  intros Hret Hf Hkeys Hnd Hk Hin.
  rewrite (run_retrieved _ _ _ _ _ _ _ _ _ Hret).
  destruct (printable stdout_encodes (name_of item rest)) eqn:Hname.
  - rewrite (manifest_duplicate py_repr stdout_encodes _ top pre o post hs h _
               Hf Hkeys Hnd Hk Hin Hname).
    reflexivity.
  - rewrite (manifest_name_fails _ _ _ _ _ Hname). reflexivity.
Qed.

(** C1, as the code has it: when two fields of the retrieved record have
    the same label, the run ends with exit status 1 and the duplicate-key
    diagnostic on standard error, after the five header lines have been
    printed to standard output; no entry of stringData is printed.  (The
    five lines stand for a name that standard output can encode; with
    another name the run ends at the line of the name, before the
    fields are looked at.) *)
Theorem duplicate_label_fails_after_header
        prog vault item rest top objs hs i j h :
  retrieved subprocess_run json_loads vault item (PDict top) ->
  assoc (lit "fields") top = Some (PList (map PDict objs)) ->
  label_keys objs = map inr hs ->
  i < j -> hs !! i = Some h -> hs !! j = Some h ->
  exists pre o post,
    objs = pre ++ o :: post
    /\ hash_key (get "label" o) ∈ label_keys pre
    /\ run subprocess_run json_loads py_repr stdout_encodes
           (prog :: vault :: item :: rest)
       = if printable stdout_encodes (name_of item rest)
         then (after_op vault item (header (name_of item rest))
                 [dup_message py_repr (get "label" o)], Exit 1)
         else name_not_printed vault item.
Proof.
  intros Hret Hf Hkeys Hij Hi Hj.
  destruct (first_repeat hs) as [Hnd | (pre_h & k & post_h & Hsplit & Hnd & Hin)].
  - exfalso. rewrite NoDup_alt in Hnd. specialize (Hnd i j h Hi Hj). lia.
  - rewrite Hsplit in Hkeys.
    destruct (label_keys_split _ _ _ _ Hkeys) as (pre & o & post & -> & Hpre & Ho).
    exists pre, o, post. split; [reflexivity|]. split.
    + rewrite Ho, Hpre. apply list_elem_of_fmap. exists k. auto.
    + rewrite map_app in Hf. simpl in Hf.
      exact (run_duplicate _ _ _ _ _ _ _ _ _ _ Hret Hf Hpre Hnd Ho Hin).
Qed.

(** C2, as the code has it: for a retrieved record whose fields have
    pairwise different labels, when standard output can encode every
    line of the manifest, the run succeeds and standard output is the
    header followed by one entry for every field that is concealed and
    not labelled password, in the order of the record, each entry being
    two spaces, the label, a colon and a space, and the value between
    double quotes, unescaped. *)
Theorem stringData_is_the_concealed_fields
        prog vault item rest top objs fs :
  retrieved subprocess_run json_loads vault item (PDict top) ->
  assoc (lit "fields") top = Some (PList (map PDict objs)) ->
  Forall2 carries objs fs ->
  NoDup (map label fs) ->
  Forall (fun line => printable stdout_encodes line = true)
         (header (name_of item rest)
          ++ map (fun f => lit "  " ++ label f ++ lit ": "
                             ++ [DQUOTE] ++ value f ++ [DQUOTE])
                 (filter (fun f => type f = lit "CONCEALED"
                                   /\ label f <> lit "password") fs)) ->
  run subprocess_run json_loads py_repr stdout_encodes
      (prog :: vault :: item :: rest)
  = (after_op vault item
       (header (name_of item rest)
        ++ map (fun f => lit "  " ++ label f ++ lit ": "
                           ++ [DQUOTE] ++ value f ++ [DQUOTE])
               (filter (fun f => type f = lit "CONCEALED"
                                 /\ label f <> lit "password") fs))
       [],
     Exit 0).
Proof.
  intros Hret Hf Hcar Hnd. rewrite <- stringData_unfold. intros Hlines.
  exact (run_item_record _ _ _ _ _ _ _ Hret Hf Hcar Hnd Hlines).
Qed.


(** C4: for vault v1 and item db-creds, without a third argument, when
    the retrieved record holds the fields username (STRING, admin),
    api_key (CONCEALED, xyz123) and password (CONCEALED, secret),
    standard output is the five header lines with the name db-creds and
    the one entry of api_key, and the run succeeds. *)
Theorem db_creds_manifest prog top objs :
  retrieved subprocess_run json_loads (lit "v1") (lit "db-creds") (PDict top) ->
  assoc (lit "fields") top = Some (PList (map PDict objs)) ->
  Forall2 carries objs
    [ {| label := lit "username"; value := lit "admin"; type := lit "STRING" |};
      {| label := lit "api_key"; value := lit "xyz123";
         type := lit "CONCEALED" |};
      {| label := lit "password"; value := lit "secret";
         type := lit "CONCEALED" |} ] ->
  let r := run subprocess_run json_loads py_repr stdout_encodes
               [prog; lit "v1"; lit "db-creds"] in
  w_out (fst r)
  = [ lit "apiVersion: v1";
      lit "kind: Secret";
      lit "metadata:";
      lit "  name: db-creds";
      lit "stringData:";
      lit "  api_key: " ++ [DQUOTE] ++ lit "xyz123" ++ [DQUOTE] ]
  /\ render (w_out (fst r))
     = lit "apiVersion: v1" ++ [LF] ++ lit "kind: Secret" ++ [LF]
         ++ lit "metadata:" ++ [LF] ++ lit "  name: db-creds" ++ [LF]
         ++ lit "stringData:" ++ [LF]
         ++ lit "  api_key: " ++ [DQUOTE] ++ lit "xyz123" ++ [DQUOTE] ++ [LF]
  /\ w_err (fst r) = []
  /\ snd r = Exit 0.
Proof.
  intros Hret Hf Hcar r. subst r.
  rewrite (run_item_record _ _ _ _ _ _ _ Hret Hf Hcar).
  - repeat split.
  - apply (bool_decide_unpack _). vm_compute. exact I.
  - repeat constructor.
Qed.

(** What standard output holds: the header with the resolved name in
    front, when the response was retrieved and parsed and the name can be
    encoded; the three lines before the name, when it cannot; nothing
    when no response was retrieved and parsed. *)
Lemma run_out_header prog vault item rest :
  (printable stdout_encodes (name_of item rest) = true
   /\ exists entries,
       w_out (fst (run subprocess_run json_loads py_repr stdout_encodes
                       (prog :: vault :: item :: rest)))
       = header (name_of item rest) ++ entries)
  \/ (printable stdout_encodes (name_of item rest) = false
      /\ w_out (fst (run subprocess_run json_loads py_repr stdout_encodes
                         (prog :: vault :: item :: rest)))
         = before_name)
  \/ (w_out (fst (run subprocess_run json_loads py_repr stdout_encodes
                      (prog :: vault :: item :: rest))) = []
      /\ ~ exists content,
             retrieved subprocess_run json_loads vault item content).
Proof.
  destruct (decide (returncode (subprocess_run (op_command vault item)) = 0%Z))
    as [Hrc|Hrc].
  - rewrite (run_fetched _ _ _ _ _ _ _ _ Hrc).
    destruct (decode_utf8 _) as [secret|] eqn:Hdec.
    + destruct (strip secret) as [|c s'] eqn:Hstrip.
      * right. right. split; [reflexivity|].
        intros (content & secret' & _ & Hdec' & Hne & _).
        rewrite Hdec in Hdec'. injection Hdec' as <-. contradiction.
      * destruct (json_loads secret) as [content|e|e] eqn:Hloads.
        -- rewrite fst_finish.
           destruct (printable stdout_encodes (name_of item rest)) eqn:Hname.
           ++ left. split; [reflexivity|].
              destruct (manifest_out py_repr stdout_encodes
                          (name_of item rest) content
                          (after_op vault item [] []) Hname) as [more Hmore].
              exists more. exact Hmore.
           ++ right. left. split; [reflexivity|].
              rewrite (manifest_name_fails _ _ _ _ _ Hname). reflexivity.
        -- right. right. split; [reflexivity|].
           intros (content & secret' & _ & Hdec' & _ & Hl).
           rewrite Hdec in Hdec'. injection Hdec' as <-. congruence.
        -- right. right. split; [reflexivity|].
           intros (content & secret' & _ & Hdec' & _ & Hl).
           rewrite Hdec in Hdec'. injection Hdec' as <-. congruence.
    + right. right. split; [reflexivity|].
      intros (content & secret' & _ & Hdec' & _). congruence.
  - rewrite (run_fetch_failed _ _ _ _ _ _ _ _ Hrc).
    right. right. split; [destruct (decode_utf8 _); reflexivity|].
    intros (content & secret' & Hrc' & _). contradiction.
Qed.

(** The fourth line of standard output, when there is one, is the line of
    the resolved name. *)
Lemma run_name_line prog vault item rest line :
  w_out (fst (run subprocess_run json_loads py_repr stdout_encodes
                  (prog :: vault :: item :: rest))) !! 3 = Some line ->
  line = lit "  name: " ++ name_of item rest.
Proof.
  destruct (run_out_header prog vault item rest)
    as [[_ [entries ->]] | [[_ ->] | [-> _]]].
  - intros [= <-]. reflexivity.
  - discriminate.
  - discriminate.
Qed.

(** C5: without a third argument the line under metadata names the item;
    with one, it names that argument: whenever standard output has a
    fourth line, it is the line of that name.  Standard output starts
    with the header that carries the name as soon as the response has
    been retrieved and parsed and the name can be encoded; it stops
    before the name when the name cannot be encoded, and is empty when no
    response was retrieved and parsed. *)
Theorem metadata_name_defaults_to_item_name prog vault item :
  ((forall line,
       w_out (fst (run subprocess_run json_loads py_repr stdout_encodes
                       [prog; vault; item])) !! 3 = Some line ->
       line = lit "  name: " ++ item)
   /\ ((printable stdout_encodes item = true
        /\ exists entries,
            w_out (fst (run subprocess_run json_loads py_repr stdout_encodes
                            [prog; vault; item]))
            = [lit "apiVersion: v1"; lit "kind: Secret"; lit "metadata:";
               lit "  name: " ++ item; lit "stringData:"] ++ entries)
       \/ (printable stdout_encodes item = false
           /\ w_out (fst (run subprocess_run json_loads py_repr stdout_encodes
                              [prog; vault; item]))
              = [lit "apiVersion: v1"; lit "kind: Secret"; lit "metadata:"])
       \/ (w_out (fst (run subprocess_run json_loads py_repr stdout_encodes
                           [prog; vault; item])) = []
           /\ ~ exists content,
                  retrieved subprocess_run json_loads vault item content)))
  /\ forall secret_name more,
      (forall line,
          w_out (fst (run subprocess_run json_loads py_repr stdout_encodes
                          (prog :: vault :: item :: secret_name :: more)))
            !! 3 = Some line ->
          line = lit "  name: " ++ secret_name)
      /\ ((printable stdout_encodes secret_name = true
           /\ exists entries,
               w_out (fst (run subprocess_run json_loads py_repr
                               stdout_encodes
                               (prog :: vault :: item :: secret_name :: more)))
               = [lit "apiVersion: v1"; lit "kind: Secret"; lit "metadata:";
                  lit "  name: " ++ secret_name; lit "stringData:"]
                   ++ entries)
          \/ (printable stdout_encodes secret_name = false
              /\ w_out (fst (run subprocess_run json_loads py_repr
                                 stdout_encodes
                                 (prog :: vault :: item :: secret_name :: more)))
                 = [lit "apiVersion: v1"; lit "kind: Secret";
                    lit "metadata:"])
          \/ (w_out (fst (run subprocess_run json_loads py_repr
                              stdout_encodes
                              (prog :: vault :: item :: secret_name :: more)))
              = []
              /\ ~ exists content,
                     retrieved subprocess_run json_loads vault item content)).
Proof.
  split; [|intros secret_name more]; split.
  - intros line. exact (run_name_line prog vault item [] line).
  - exact (run_out_header prog vault item []).
  - intros line.
    exact (run_name_line prog vault item (secret_name :: more) line).
  - exact (run_out_header prog vault item (secret_name :: more)).
Qed.

(** C6, as the code has it: when [op] leaves with a status other than 0,
    nothing is written to standard output, the exit status is 1 and the
    first line on standard error names the item and the vault; when the
    captured error stream is valid UTF-8 its text is printed next and the
    run leaves through [sys.exit(1)]; when it is not, decoding it raises
    [UnicodeDecodeError] and the stream is not printed. *)
Theorem retrieval_failure prog vault item rest :
  returncode (subprocess_run (op_command vault item)) <> 0%Z ->
  let r := run subprocess_run json_loads py_repr stdout_encodes
               (prog :: vault :: item :: rest) in
  w_out (fst r) = []
  /\ exit_status (snd r) = 1%Z
  /\ w_spawned (fst r) = [op_command vault item]
  /\ (forall text,
        decode_utf8 (stderr (subprocess_run (op_command vault item)))
        = Some text ->
        w_err (fst r)
        = [lit "Error fetching item '" ++ item ++ lit "' from vault '"
             ++ vault ++ lit "':"; text]
        /\ snd r = Exit 1)
  /\ (decode_utf8 (stderr (subprocess_run (op_command vault item))) = None ->
      w_err (fst r)
      = [lit "Error fetching item '" ++ item ++ lit "' from vault '"
           ++ vault ++ lit "':"]
      /\ snd r = Raise UnicodeDecodeError).
Proof.
  intros Hrc r. subst r. rewrite (run_fetch_failed _ _ _ _ _ _ _ _ Hrc).
  destruct (decode_utf8 _) as [text|];
    (split; [reflexivity|]); (split; [reflexivity|]);
    (split; [reflexivity|]); split.
  - intros t [= <-]. split; reflexivity.
  - discriminate.
  - discriminate.
  - intros _. split; reflexivity.
Qed.

(** C7: when [op] leaves with status 0 and its output is empty or made of
    white space only, the run prints the empty-response diagnostic, which
    names the item, to standard error, writes nothing to standard output
    and leaves with exit status 1. *)
Theorem empty_response_fails prog vault item rest secret :
  returncode (subprocess_run (op_command vault item)) = 0%Z ->
  decode_utf8 (stdout (subprocess_run (op_command vault item))) = Some secret ->
  Forall (fun c => isspace c = true) secret ->
  run subprocess_run json_loads py_repr stdout_encodes
      (prog :: vault :: item :: rest)
  = ({| w_out := [];
        w_err := [lit "Error: Empty response from 1Password for item '"
                    ++ item ++ lit "'"];
        w_spawned := [op_command vault item] |}, Exit 1).
Proof.
  intros Hrc Hdec Hblank.
  rewrite (run_fetched _ _ _ _ _ _ _ _ Hrc), Hdec, (strip_blank _ Hblank).
  reflexivity.
Qed.

(** C8, as the code has it: when [op] leaves with status 0, its output is
    valid UTF-8 and not blank, and [json.loads] rejects it with a
    [JSONDecodeError], the run prints the parse error and the first 500
    characters of the response to standard error, writes nothing to
    standard output and leaves with exit status 1. *)
Theorem malformed_json_fails prog vault item rest secret e :
  returncode (subprocess_run (op_command vault item)) = 0%Z ->
  decode_utf8 (stdout (subprocess_run (op_command vault item))) = Some secret ->
  strip secret <> [] ->
  json_loads secret = DecodeError e ->
  run subprocess_run json_loads py_repr stdout_encodes
      (prog :: vault :: item :: rest)
  = ({| w_out := [];
        w_err := [lit "Error parsing JSON response: " ++ e;
                  lit "Raw response: " ++ take 500 secret];
        w_spawned := [op_command vault item] |}, Exit 1).
Proof.
  intros Hrc Hdec Hne Hloads.
  rewrite (run_fetched _ _ _ _ _ _ _ _ Hrc), Hdec, Hloads.
  destruct (strip secret); [contradiction|reflexivity].
Qed.

(** After the spawn of [op] nothing else is spawned. *)
Lemma run_spawned prog vault item rest :
  w_spawned (fst (run subprocess_run json_loads py_repr stdout_encodes
                      (prog :: vault :: item :: rest)))
  = [op_command vault item].
Proof.
  destruct (decide (returncode (subprocess_run (op_command vault item)) = 0%Z))
    as [Hrc|Hrc].
  - rewrite (run_fetched _ _ _ _ _ _ _ _ Hrc).
    destruct (decode_utf8 _) as [secret|]; [|reflexivity].
    destruct (strip secret); [reflexivity|].
    destruct (json_loads secret); try reflexivity.
    rewrite fst_finish. apply manifest_spawned.
  - rewrite (run_fetch_failed _ _ _ _ _ _ _ _ Hrc).
    destruct (decode_utf8 _); reflexivity.
Qed.

(** C9, as the code has it: with fewer than two arguments the run ends
    with an uncaught [IndexError] at the unguarded access to [sys.argv]:
    nothing is printed by the script, no subprocess is spawned and the
    exit status is 1.  With both arguments the run goes on and spawns
    [op] for that item and vault. *)
Theorem missing_argument_raises_index_error argv :
  (length argv < 3 ->
   run subprocess_run json_loads py_repr stdout_encodes argv
   = (world0, Raise IndexError)
   /\ exit_status
        (snd (run subprocess_run json_loads py_repr stdout_encodes argv))
      = 1%Z)
  /\ (3 <= length argv ->
      exists vault item,
        argv !! 1 = Some vault /\ argv !! 2 = Some item
        /\ w_spawned
             (fst (run subprocess_run json_loads py_repr stdout_encodes argv))
           = [op_command vault item]).
Proof.
  split.
  - intros Hlen. rewrite (run_too_few_arguments _ _ _ _ _ Hlen). auto.
  - intros Hlen. destruct argv as [|prog [|vault [|item rest]]];
      simpl in Hlen; try lia.
    exists vault, item. repeat split. apply run_spawned.
Qed.

(** C10, as the code has it: when the parsed response is not an object,
    or has no key fields, or its fields is null, a boolean or a number
    (integer or float), or an item of its fields is not an object (the
    items before it being objects with hashable, pairwise different
    labels), the run ends with an uncaught exception after the five
    header lines have been printed; the script writes no diagnostic of
    its own.  (The five lines stand for a name that standard output can
    encode; otherwise the run ends at the line of the name.) *)
Theorem shape_error_after_header prog vault item rest content e :
  retrieved subprocess_run json_loads vault item content ->
  shape_error content e ->
  run subprocess_run json_loads py_repr stdout_encodes
      (prog :: vault :: item :: rest)
  = if printable stdout_encodes (name_of item rest)
    then ({| w_out := [lit "apiVersion: v1"; lit "kind: Secret";
                       lit "metadata:";
                       lit "  name: " ++ name_of item rest;
                       lit "stringData:"];
             w_err := [];
             w_spawned := [op_command vault item] |}, Raise e)
    else name_not_printed vault item.
Proof.
  intros Hret Hshape.
  rewrite (run_retrieved _ _ _ _ _ _ _ _ _ Hret).
  destruct (printable stdout_encodes (name_of item rest)) eqn:Hname.
  - rewrite (manifest_shape_error py_repr stdout_encodes _ _ _ _ Hshape Hname).
    reflexivity.
  - rewrite (manifest_name_fails _ _ _ _ _ Hname). reflexivity.
Qed.

End Claims.

(** ** The claims at concrete runs *)

Section Runs.
Import Py Proc Json Script Example.

(** The decoder and the script on small inputs. *)
Example decode_ascii : decode_utf8 (ascii_bytes "op") = Some (lit "op").
Proof. reflexivity. Qed.

Example decode_two_bytes : decode_utf8 [xc3; xa9] = Some [233%N].
Proof. reflexivity. Qed.

Example decode_overlong : decode_utf8 [xc0; x80] = None.
Proof. reflexivity. Qed.

Example decode_surrogate : decode_utf8 [xed; xa0; x80] = None.
Proof. reflexivity. Qed.

Example decode_not_utf8 : decode_utf8 not_utf8 = None.
Proof. reflexivity. Qed.

Example strip_spaces : strip (lit "  a b ") = lit "a b".
Proof. reflexivity. Qed.

Example loads_not_json :
  loads (lit "not json")
  = DecodeError (lit "Expecting value: line 1 column 1 (char 0)").
Proof. vm_compute. reflexivity. Qed.

Example loads_array :
  loads (lit "[1, -2, null, true]")
  = Parsed (PList [PInt 1; PInt (-2); PNone; PBool true]).
Proof. vm_compute. reflexivity. Qed.

Example loads_escape :
  loads (map Byte.to_N (json_bytes "'a\n\ud800'"))
  = Parsed (PStr [97%N; 10%N; 55296%N]).
Proof. vm_compute. reflexivity. Qed.

Example loads_float :
  loads (lit "0.1") = Parsed (PFloat (S754_finite false 7205759403792794 (-56))).
Proof. vm_compute. reflexivity. Qed.

Example float_key_integer :
  hash_key (PFloat (S754_finite false 4503599627370496 (-52))) = inr (HInt 1).
Proof. reflexivity. Qed.

Example float_key_fraction :
  hash_key (PFloat (S754_finite false 6755399441055744 (-52)))
  = inr (HFrac false 3 (-1)).
Proof. reflexivity. Qed.

(** A name with a byte that is not UTF-8 is printed under the C locale
    and stops the run under UTF-8. *)
Example odd_name_c_locale :
  run (op_answers 0 db_creds_json []) loads any_repr c_locale argv_odd_name
  = (after_op (lit "v1") (lit "db-creds")
       (header [110%N; 56575%N]
        ++ [lit "  api_key: " ++ [DQUOTE] ++ lit "xyz123" ++ [DQUOTE]]) [],
     Exit 0).
Proof. vm_compute. reflexivity. Qed.

Example odd_name_utf8 :
  run (op_answers 0 db_creds_json []) loads any_repr utf8_strict argv_odd_name
  = name_not_printed (lit "v1") (lit "db-creds").
Proof. vm_compute. reflexivity. Qed.

Lemma carries_field_object fs : Forall2 carries (map field_object fs) fs.
Proof.
  induction fs as [|f fs IH]; constructor; [|exact IH].
  repeat split.
Qed.

Lemma retrieved_db_creds :
  retrieved (op_answers 0 db_creds_json []) loads (lit "v1") (lit "db-creds")
            (PDict (record_of db_creds_fields)).
Proof.
  exists (text_of db_creds_json). vm_compute.
  repeat split; discriminate.
Qed.

Lemma retrieved_twice :
  retrieved (op_answers 0 twice_json []) loads (lit "v1") (lit "db-creds")
            (PDict (record_of twice_fields)).
Proof.
  exists (text_of twice_json). vm_compute.
  repeat split; discriminate.
Qed.


Lemma retrieved_no_fields :
  retrieved (op_answers 0 no_fields_json []) loads (lit "v1") (lit "db-creds")
            (PDict [(lit "title", PStr (lit "db-creds"))]).
Proof.
  exists (text_of no_fields_json). vm_compute.
  repeat split; discriminate.
Qed.

Lemma retrieved_empty_string_fields :
  retrieved (op_answers 0 empty_string_fields_json []) loads
            (lit "v1") (lit "db-creds")
            (PDict [(lit "fields", PStr [])]).
Proof.
  exists (text_of empty_string_fields_json). vm_compute.
  repeat split; discriminate.
Qed.

(** C1 does not hold as stated: the record has two fields labelled
    token, the run fails with the duplicate-key diagnostic, and standard
    output is not empty: it holds the five header lines. *)
Lemma duplicate_label_header_already_printed :
  retrieved (op_answers 0 twice_json []) loads (lit "v1") (lit "db-creds")
            (PDict (record_of twice_fields))
  /\ map label twice_fields = [lit "token"; lit "token"]
  /\ run (op_answers 0 twice_json []) loads any_repr utf8_strict argv_db_creds
     = ({| w_out := [lit "apiVersion: v1"; lit "kind: Secret";
                     lit "metadata:"; lit "  name: db-creds";
                     lit "stringData:"];
           w_err := [lit "Error: duplicate key: token"];
           w_spawned := [op_command (lit "v1") (lit "db-creds")] |}, Exit 1)
  /\ w_out (fst (run (op_answers 0 twice_json []) loads any_repr utf8_strict
                     argv_db_creds)) <> [].
Proof.
  split; [exact retrieved_twice|]. split; [reflexivity|].
  split; [vm_compute; reflexivity|]. vm_compute. discriminate.
Qed.

Lemma duplicate_label_fails_after_header_witness :
  exists pre o post,
    map field_object twice_fields = pre ++ o :: post
    /\ hash_key (get "label" o) ∈ label_keys pre
    /\ run (op_answers 0 twice_json []) loads any_repr utf8_strict argv_db_creds
       = (after_op (lit "v1") (lit "db-creds") (header (lit "db-creds"))
            [dup_message any_repr (get "label" o)], Exit 1).
Proof.
  apply (duplicate_label_fails_after_header
           (op_answers 0 twice_json []) loads any_repr utf8_strict
           (lit "op_to_yaml.py") (lit "v1") (lit "db-creds") []
           (record_of twice_fields) (map field_object twice_fields)
           [HStr (lit "token"); HStr (lit "token")] 0 1 (HStr (lit "token"))).
  - exact retrieved_twice.
  - reflexivity.
  - reflexivity.
  - lia.
  - reflexivity.
  - reflexivity.
Defined.

Lemma retrieved_surrogate :
  retrieved (op_answers 0 surrogate_json []) loads (lit "v1") (lit "db-creds")
            (PDict (record_of surrogate_fields)).
Proof.
  exists (text_of surrogate_json). vm_compute.
  repeat split; discriminate.
Qed.

(** C2 does not hold as stated: the record has one field, concealed and
    labelled k, whose value is the lone surrogate U+D800 (written \ud800
    in the response).  It passes validation, but a standard output under
    UTF-8 cannot encode the entry: the [print] of line 51 raises
    [UnicodeEncodeError] and the stringData block lacks the field. *)
Lemma unencodable_value_cuts_stringData :
  retrieved (op_answers 0 surrogate_json []) loads (lit "v1") (lit "db-creds")
            (PDict (record_of surrogate_fields))
  /\ NoDup (map label surrogate_fields)
  /\ filter (fun f => type f = lit "CONCEALED" /\ label f <> lit "password")
            surrogate_fields = surrogate_fields
  /\ run (op_answers 0 surrogate_json []) loads any_repr utf8_strict
         argv_db_creds
     = ({| w_out := [lit "apiVersion: v1"; lit "kind: Secret";
                     lit "metadata:"; lit "  name: db-creds";
                     lit "stringData:"];
           w_err := [];
           w_spawned := [op_command (lit "v1") (lit "db-creds")] |},
        Raise UnicodeEncodeError).
Proof.
  split; [exact retrieved_surrogate|].
  split; [apply (bool_decide_unpack _); vm_compute; exact I|].
  split; [reflexivity|]. vm_compute. reflexivity.
Qed.

Lemma stringData_is_the_concealed_fields_witness :
  run (op_answers 0 db_creds_json []) loads any_repr utf8_strict argv_db_creds
  = (after_op (lit "v1") (lit "db-creds")
       (header (lit "db-creds")
        ++ map (fun f => lit "  " ++ label f ++ lit ": "
                           ++ [DQUOTE] ++ value f ++ [DQUOTE])
               (filter (fun f => type f = lit "CONCEALED"
                                 /\ label f <> lit "password")
                       db_creds_fields))
       [],
     Exit 0).
Proof.
  apply (stringData_is_the_concealed_fields
           (op_answers 0 db_creds_json []) loads any_repr utf8_strict
           (lit "op_to_yaml.py") (lit "v1") (lit "db-creds") []
           (record_of db_creds_fields) (map field_object db_creds_fields)
           db_creds_fields).
  - exact retrieved_db_creds.
  - reflexivity.
  - apply carries_field_object.
  - apply (bool_decide_unpack _). vm_compute. exact I.
  - vm_compute. repeat constructor.
Defined.


Lemma db_creds_manifest_witness :
  w_out (fst (run (op_answers 0 db_creds_json []) loads any_repr utf8_strict
                  argv_db_creds))
  = [ lit "apiVersion: v1";
      lit "kind: Secret";
      lit "metadata:";
      lit "  name: db-creds";
      lit "stringData:";
      lit "  api_key: " ++ [DQUOTE] ++ lit "xyz123" ++ [DQUOTE] ]
  /\ render (w_out (fst (run (op_answers 0 db_creds_json []) loads any_repr utf8_strict
                             argv_db_creds)))
     = lit "apiVersion: v1" ++ [LF] ++ lit "kind: Secret" ++ [LF]
         ++ lit "metadata:" ++ [LF] ++ lit "  name: db-creds" ++ [LF]
         ++ lit "stringData:" ++ [LF]
         ++ lit "  api_key: " ++ [DQUOTE] ++ lit "xyz123" ++ [DQUOTE] ++ [LF]
  /\ w_err (fst (run (op_answers 0 db_creds_json []) loads any_repr utf8_strict
                     argv_db_creds)) = []
  /\ snd (run (op_answers 0 db_creds_json []) loads any_repr utf8_strict argv_db_creds)
     = Exit 0.
Proof.
  apply (db_creds_manifest
           (op_answers 0 db_creds_json []) loads any_repr utf8_strict
           (lit "op_to_yaml.py")
           (record_of db_creds_fields) (map field_object db_creds_fields)).
  - exact retrieved_db_creds.
  - reflexivity.
  - apply (carries_field_object db_creds_fields).
Defined.

(** C6 does not hold as stated: [op] leaves with status 1 and an error
    stream that is not UTF-8; the run prints the line that names item and
    vault and then dies of [UnicodeDecodeError]: the captured stream is
    not printed and [sys.exit(1)] is not reached. *)
Lemma retrieval_failure_stream_not_printed :
  returncode (op_answers 1 [] not_utf8 (op_command (lit "v1") (lit "db-creds")))
  <> 0%Z
  /\ stderr (op_answers 1 [] not_utf8 (op_command (lit "v1") (lit "db-creds")))
     = [xff]
  /\ run (op_answers 1 [] not_utf8) loads any_repr utf8_strict argv_db_creds
     = ({| w_out := [];
           w_err := [lit "Error fetching item 'db-creds' from vault 'v1':"];
           w_spawned := [op_command (lit "v1") (lit "db-creds")] |},
        Raise UnicodeDecodeError).
Proof.
  split; [discriminate|]. split; [reflexivity|]. vm_compute. reflexivity.
Qed.

Lemma retrieval_failure_witness :
  w_err (fst (run (op_answers 1 [] (ascii_bytes "[ERROR] item not found"))
                  loads any_repr utf8_strict argv_db_creds))
  = [lit "Error fetching item 'db-creds' from vault 'v1':";
     lit "[ERROR] item not found"]
  /\ snd (run (op_answers 1 [] (ascii_bytes "[ERROR] item not found"))
              loads any_repr utf8_strict argv_db_creds) = Exit 1.
Proof.
  apply (retrieval_failure
           (op_answers 1 [] (ascii_bytes "[ERROR] item not found"))
           loads any_repr utf8_strict (lit "op_to_yaml.py") (lit "v1") (lit "db-creds") []).
  - simpl. discriminate.
  - reflexivity.
Defined.

Lemma empty_response_fails_witness :
  run (op_answers 0 [x20; x0a] []) loads any_repr utf8_strict argv_db_creds
  = ({| w_out := [];
        w_err := [lit "Error: Empty response from 1Password for item 'db-creds'"];
        w_spawned := [op_command (lit "v1") (lit "db-creds")] |}, Exit 1).
Proof.
  apply (empty_response_fails
           (op_answers 0 [x20; x0a] []) loads any_repr utf8_strict
           (lit "op_to_yaml.py") (lit "v1") (lit "db-creds") []
           [32%N; 10%N]).
  - reflexivity.
  - reflexivity.
  - repeat constructor.
Defined.

(** C8 does not hold as stated: [op] leaves with status 0 and an output
    that is not empty and is not JSON, for it is not even UTF-8; the run
    dies of [UnicodeDecodeError] at line 19 and prints neither the parse
    error nor the response. *)
Lemma undecodable_output_no_parse_diagnostic :
  stdout (op_answers 0 not_utf8 [] (op_command (lit "v1") (lit "db-creds")))
  = [xff]
  /\ (forall secret,
        decode_utf8 not_utf8 = Some secret -> exists v, loads secret = Parsed v)
  /\ run (op_answers 0 not_utf8 []) loads any_repr utf8_strict argv_db_creds
     = ({| w_out := []; w_err := [];
           w_spawned := [op_command (lit "v1") (lit "db-creds")] |},
        Raise UnicodeDecodeError).
Proof.
  split; [reflexivity|]. split; [discriminate|]. vm_compute. reflexivity.
Qed.

Lemma malformed_json_fails_witness :
  run (op_answers 0 (ascii_bytes "not json") []) loads any_repr utf8_strict argv_db_creds
  = ({| w_out := [];
        w_err := [lit "Error parsing JSON response: "
                    ++ lit "Expecting value: line 1 column 1 (char 0)";
                  lit "Raw response: " ++ take 500 (lit "not json")];
        w_spawned := [op_command (lit "v1") (lit "db-creds")] |}, Exit 1).
Proof.
  apply (malformed_json_fails
           (op_answers 0 (ascii_bytes "not json") []) loads any_repr utf8_strict
           (lit "op_to_yaml.py") (lit "v1") (lit "db-creds") []
           (lit "not json")
           (lit "Expecting value: line 1 column 1 (char 0)")).
  - reflexivity.
  - reflexivity.
  - vm_compute. discriminate.
  - vm_compute. reflexivity.
Defined.

(** C9 does not hold as stated: with no argument at all the access to
    [sys.argv[1]] is made and raises [IndexError]; the run does not leave
    through an exit of its own and prints no usage message. *)
Lemma missing_argument_no_usage_error :
  run (op_answers 0 db_creds_json []) loads any_repr utf8_strict [lit "op_to_yaml.py"]
  = ({| w_out := []; w_err := []; w_spawned := [] |}, Raise IndexError).
Proof. reflexivity. Qed.

Lemma missing_argument_raises_index_error_witness :
  (run (op_answers 0 db_creds_json []) loads any_repr utf8_strict
       [lit "op_to_yaml.py"; lit "v1"]
   = (world0, Raise IndexError)
   /\ exit_status (snd (run (op_answers 0 db_creds_json []) loads any_repr utf8_strict
                            [lit "op_to_yaml.py"; lit "v1"])) = 1%Z)
  /\ exists vault item,
      argv_db_creds !! 1 = Some vault /\ argv_db_creds !! 2 = Some item
      /\ w_spawned (fst (run (op_answers 0 db_creds_json []) loads any_repr utf8_strict
                             argv_db_creds))
         = [op_command vault item].
Proof.
  split.
  - apply (proj1 (missing_argument_raises_index_error
                    (op_answers 0 db_creds_json []) loads any_repr utf8_strict
                    [lit "op_to_yaml.py"; lit "v1"])).
    simpl. lia.
  - apply (proj2 (missing_argument_raises_index_error
                    (op_answers 0 db_creds_json []) loads any_repr utf8_strict
                    argv_db_creds)).
    simpl. lia.
Defined.

(** C10 does not hold as stated: the response is valid JSON whose fields
    is the empty string, not a list of objects; both loops run over
    nothing, no exception is raised and the run succeeds with an empty
    manifest. *)
Lemma empty_string_fields_is_accepted :
  retrieved (op_answers 0 empty_string_fields_json []) loads
            (lit "v1") (lit "db-creds")
            (PDict [(lit "fields", PStr [])])
  /\ run (op_answers 0 empty_string_fields_json []) loads any_repr utf8_strict
         argv_db_creds
     = ({| w_out := [lit "apiVersion: v1"; lit "kind: Secret";
                     lit "metadata:"; lit "  name: db-creds";
                     lit "stringData:"];
           w_err := [];
           w_spawned := [op_command (lit "v1") (lit "db-creds")] |}, Exit 0).
Proof.
  split; [exact retrieved_empty_string_fields|]. vm_compute. reflexivity.
Qed.

Lemma retrieved_float_fields :
  retrieved (op_answers 0 float_fields_json []) loads
            (lit "v1") (lit "db-creds")
            (PDict [(lit "fields",
                     PFloat (S754_finite false 6755399441055744 (-52)))]).
Proof.
  exists (text_of float_fields_json). vm_compute.
  repeat split; discriminate.
Qed.

Lemma shape_error_after_header_witness :
  run (op_answers 0 no_fields_json []) loads any_repr utf8_strict argv_db_creds
  = ({| w_out := [lit "apiVersion: v1"; lit "kind: Secret"; lit "metadata:";
                  lit "  name: " ++ name_of (lit "db-creds") [];
                  lit "stringData:"];
        w_err := [];
        w_spawned := [op_command (lit "v1") (lit "db-creds")] |},
     Raise KeyError)
  /\ run (op_answers 0 float_fields_json []) loads any_repr utf8_strict
         argv_db_creds
     = ({| w_out := [lit "apiVersion: v1"; lit "kind: Secret"; lit "metadata:";
                     lit "  name: " ++ name_of (lit "db-creds") [];
                     lit "stringData:"];
           w_err := [];
           w_spawned := [op_command (lit "v1") (lit "db-creds")] |},
        Raise TypeError).
Proof.
  split.
  - apply (shape_error_after_header
             (op_answers 0 no_fields_json []) loads any_repr utf8_strict
             (lit "op_to_yaml.py") (lit "v1") (lit "db-creds") []
             (PDict [(lit "title", PStr (lit "db-creds"))]) KeyError).
    + exact retrieved_no_fields.
    + apply no_fields. reflexivity.
  - apply (shape_error_after_header
             (op_answers 0 float_fields_json []) loads any_repr utf8_strict
             (lit "op_to_yaml.py") (lit "v1") (lit "db-creds") []
             (PDict [(lit "fields",
                      PFloat (S754_finite false 6755399441055744 (-52)))])
             TypeError).
    + exact retrieved_float_fields.
    + apply (fields_not_iterable _ (PFloat (S754_finite false 6755399441055744 (-52)))).
      * reflexivity.
      * right. right. right. eexists. reflexivity.
Defined.

End Runs.


(** ** Further properties of the script *)

Section Further.
Import Py Proc Json Script Loops Phases.

Variable subprocess_run : list pystr -> CompletedProcess.
Variable json_loads : pystr -> json_result.
Variable py_repr : pyval -> pystr.
Variable stdout_encodes : N -> bool.

(** An early stop inside a loop is an early stop of one of its turns. *)
Lemma for_each_halt {S : Type} (P : halt -> Prop)
      (body : pyval -> S -> prog S) :
  (forall x s w w' h, body x s w = (w', inl h) -> P h) ->
  forall items s w w' h, for_each items body s w = (w', inl h) -> P h.
Proof.
  intros Hbody. induction items as [|x items IH]; intros s w w' h; simpl.
  - discriminate.
  - unfold bind. destruct (body x s w) as [w1 [h1|s1]] eqn:Hx.
    + intros [= <- <-]. exact (Hbody _ _ _ _ _ Hx).
    + apply IH.
Qed.

(** A loop that runs to its end wrote to standard error what its turns
    wrote. *)
Lemma for_each_err {S : Type} (body : pyval -> S -> prog S) :
  (forall x s w w' s', body x s w = (w', inr s') -> w_err w' = w_err w) ->
  forall items s w w' s',
    for_each items body s w = (w', inr s') -> w_err w' = w_err w.
Proof.
  intros Hbody. induction items as [|x items IH]; intros s w w' s'; simpl.
  - intros [= <- _]. reflexivity.
  - unfold bind. destruct (body x s w) as [w1 [h1|s1]] eqn:Hx; [discriminate|].
    intros Hrest. rewrite (IH _ _ _ _ Hrest). exact (Hbody _ _ _ _ _ Hx).
Qed.

(** The ways a run can stop early after the response is parsed. *)
Lemma dupecheck_body_halt x d w w' h :
  dupecheck_body py_repr x d w = (w', inl h) ->
  h = Exit 1 \/ exists e, h = Raise e.
Proof.
  unfold dupecheck_body, bind, method_get, contains, setitem, ret, raise.
  destruct x; try (intros [= _ <-]; right; eexists; reflexivity).
  destruct (hash_key _); [intros [= _ <-]; right; eexists; reflexivity|].
  simpl. destruct (bool_decide _).
  - unfold sys_exit_msg. intros [= _ <-]. left. reflexivity.
  - discriminate.
Qed.

Lemma emit_body_halt x u w w' h :
  emit_body py_repr stdout_encodes x u w = (w', inl h) ->
  h = Exit 1 \/ exists e, h = Raise e.
Proof.
  unfold emit_body, bind, method_get, ret, raise, print.
  destruct x; try (intros [= _ <-]; right; eexists; reflexivity).
  destruct (_ && _); [|discriminate].
  destruct (printable _ _); [discriminate|].
  intros [= _ <-]. right. eexists. reflexivity.
Qed.

Lemma dupecheck_body_err x d w w' d' :
  dupecheck_body py_repr x d w = (w', inr d') -> w_err w' = w_err w.
Proof.
  unfold dupecheck_body, bind, method_get, contains, setitem, ret, raise.
  destruct x; try discriminate.
  destruct (hash_key _); [discriminate|].
  simpl. destruct (bool_decide _); [discriminate|].
  intros [= <- _]. reflexivity.
Qed.

Lemma emit_body_err x u w w' u' :
  emit_body py_repr stdout_encodes x u w = (w', inr u') -> w_err w' = w_err w.
Proof.
  unfold emit_body, bind, method_get, ret, raise, print.
  destruct x; try discriminate.
  destruct (_ && _); [|intros [= <- _]; reflexivity].
  destruct (printable _ _); [|discriminate].
  intros [= <- _]. reflexivity.
Qed.

Lemma manifest_halt name content w w' h :
  manifest py_repr stdout_encodes name content w = (w', inl h) ->
  h = Exit 1 \/ exists e, h = Raise e.
Proof.
  rewrite manifest_header.
  destruct (printable stdout_encodes name);
    [|intros [= _ <-]; right; eexists; reflexivity].
  unfold bind at 1.
  destruct (check_duplicates py_repr content _) as [w1 [h1|d]] eqn:Hdup.
  - intros [= _ <-]. revert Hdup.
    unfold check_duplicates, bind, subscript, raise.
    destruct content; try (intros [= _ <-]; right; eexists; reflexivity).
    destruct (assoc _ d) as [f|];
      [|intros [= _ <-]; right; eexists; reflexivity].
    simpl. rewrite iter_pure.
    destruct (snd (iter f world0)) as [h0|items] eqn:Hit.
    + intros [= _ <-]. destruct f; simpl in Hit; try discriminate;
        injection Hit as <-; right; eexists; reflexivity.
    + intros Hloop.
      exact (for_each_halt (fun h => h = Exit 1 \/ exists e, h = Raise e)
               _ dupecheck_body_halt _ _ _ _ _ Hloop).
  - unfold emit_fields, bind, subscript, raise.
    destruct content; try (intros [= _ <-]; right; eexists; reflexivity).
    destruct (assoc _ d0) as [f|];
      [|intros [= _ <-]; right; eexists; reflexivity].
    simpl. rewrite iter_pure.
    destruct (snd (iter f world0)) as [h0|items] eqn:Hit.
    + intros [= _ <-]. destruct f; simpl in Hit; try discriminate;
        injection Hit as <-; right; eexists; reflexivity.
    + intros Hloop.
      exact (for_each_halt (fun h => h = Exit 1 \/ exists e, h = Raise e)
               _ emit_body_halt _ _ _ _ _ Hloop).
Qed.

(** A manifest printed to its end had a printable name and left standard
    error alone. *)
Lemma manifest_done name content w w' :
  manifest py_repr stdout_encodes name content w = (w', inr tt) ->
  printable stdout_encodes name = true /\ w_err w' = w_err w.
Proof.
  rewrite manifest_header.
  destruct (printable stdout_encodes name); [|discriminate].
  split; [reflexivity|]. revert H. unfold bind at 1.
  destruct (check_duplicates py_repr content _) as [w1 [h1|d]] eqn:Hdup;
    [discriminate|].
  intros Hemit.
  assert (H1 : w_err w1 = w_err w).
  { revert Hdup. unfold check_duplicates, bind, subscript, raise.
    destruct content; try discriminate.
    destruct (assoc _ d0) as [f|]; [|discriminate].
    simpl. rewrite iter_pure.
    destruct (snd (iter f world0)) as [h0|items]; [discriminate|].
    intros Hloop.
    rewrite (for_each_err _ (dupecheck_body_err) _ _ _ _ _ Hloop).
    reflexivity. }
  rewrite <- H1. revert Hemit.
  unfold emit_fields, bind, subscript, raise.
  destruct content; try discriminate.
  destruct (assoc _ d0) as [f|]; [|discriminate].
  simpl. rewrite iter_pure.
  destruct (snd (iter f world0)) as [h0|items]; [discriminate|].
  apply for_each_err. apply emit_body_err.
Qed.

(** The first loop stops with [TypeError] at an object whose label cannot
    be hashed. *)
Lemma dupecheck_loop_unhashable pre o post hs e w :
  label_keys pre = map inr hs ->
  NoDup hs ->
  hash_key (get "label" o) = inl e ->
  for_each (map PDict pre ++ PDict o :: post) (dupecheck_body py_repr) ∅ w
  = (w, inl (Raise e)).
Proof.
  intros Hkeys Hnd Hk.
  destruct (dupecheck_loop_ok py_repr pre hs ∅ w Hkeys Hnd) as (d' & Hrun & _).
  { intros k _. apply lookup_empty. }
  rewrite for_each_app, Hrun. simpl. unfold bind at 1.
  unfold dupecheck_body, bind, method_get, contains, ret, raise.
  fold (get "label" o). rewrite Hk. reflexivity.
Qed.

(** [lstrip] leaves nothing exactly of a blank text, and what it leaves
    does not start with white space. *)
Lemma lstrip_nil s : lstrip s = [] -> Forall (fun c => isspace c = true) s.
Proof.
  induction s as [|c t IH]; simpl; [constructor|].
  destruct (isspace c) eqn:Hc; [|discriminate].
  intros Ht. constructor; [exact Hc | exact (IH Ht)].
Qed.

Lemma lstrip_blank s : Forall (fun c => isspace c = true) s -> lstrip s = [].
Proof.
  induction 1 as [|c t Hc _ IH]; simpl; [reflexivity|].
  rewrite Hc. exact IH.
Qed.

Lemma lstrip_head s c t : lstrip s = c :: t -> isspace c = false.
Proof.
  induction s as [|a s IH]; simpl; [discriminate|].
  destruct (isspace a) eqn:Ha; [exact IH|].
  intros [= <- _]. exact Ha.
Qed.

Lemma strip_nil s : strip s = [] -> Forall (fun c => isspace c = true) s.
Proof.
  unfold strip, rstrip. intros H.
  apply (f_equal (@rev N)) in H. rewrite rev_involutive in H. simpl in H.
  apply lstrip_nil in H.
  destruct (lstrip s) as [|c t] eqn:Hl; [exact (lstrip_nil _ Hl)|].
  exfalso. apply lstrip_head in Hl.
  rewrite Forall_forall in H. specialize (H c).
  rewrite H in Hl; [discriminate|].
  apply list_elem_of_In. apply (proj1 (in_rev (c :: t) c)). left. reflexivity.
Qed.

(** ASCII bytes decode to themselves. *)
Lemma decode_utf8_ascii bs :
  Forall (fun b => (Byte.to_N b < 128)%N) bs ->
  decode_utf8 bs = Some (map Byte.to_N bs).
Proof.
  induction 1 as [|b bs Hb _ IH]; [reflexivity|].
  cbn [decode_utf8 map]. apply N.ltb_lt in Hb. rewrite Hb, IH. reflexivity.
Qed.

(** A record of objects with new labels, under a name and with entries
    that standard output can encode. *)
Lemma run_objects prog vault item rest top objs hs :
  retrieved subprocess_run json_loads vault item (PDict top) ->
  assoc (lit "fields") top = Some (PList (map PDict objs)) ->
  label_keys objs = map inr hs ->
  NoDup hs ->
  Forall (fun line => printable stdout_encodes line = true)
         (header (name_of item rest) ++ object_entries py_repr objs) ->
  run subprocess_run json_loads py_repr stdout_encodes
      (prog :: vault :: item :: rest)
  = (after_op vault item
       (header (name_of item rest) ++ object_entries py_repr objs) [],
     Exit 0).
Proof.
  intros Hret Hf Hkeys Hnd Hlines.
  apply Forall_app in Hlines as [Hhead Hlines].
  assert (Hname : printable stdout_encodes (name_of item rest) = true).
  { unfold header in Hhead. rewrite !Forall_cons in Hhead.
    destruct Hhead as (_ & _ & _ & Hn & _). exact Hn. }
  rewrite (run_retrieved _ _ _ _ _ _ _ _ _ Hret).
  rewrite (manifest_valid py_repr stdout_encodes _ top objs hs _
             Hf Hkeys Hnd Hname Hlines).
  reflexivity.
Qed.

(** X1: the exit status of a run is 0 or 1, whatever the arguments, the
    answer of [op], the decoder and the encoding of standard output. *)
Theorem exit_status_is_0_or_1 argv :
  exit_status
    (snd (run subprocess_run json_loads py_repr stdout_encodes argv)) = 0%Z
  \/ exit_status
       (snd (run subprocess_run json_loads py_repr stdout_encodes argv)) = 1%Z.
Proof.
  destruct argv as [|prog [|vault [|item rest]]]; try (right; reflexivity).
  destruct (decide (returncode (subprocess_run (op_command vault item)) = 0%Z))
    as [Hrc|Hrc].
  - rewrite (run_fetched _ _ _ _ _ _ _ _ Hrc).
    destruct (decode_utf8 _) as [secret|]; [|right; reflexivity].
    destruct (strip secret); [right; reflexivity|].
    destruct (json_loads secret); try (right; reflexivity).
    destruct (manifest py_repr stdout_encodes _ v _) as [w' [h|[]]] eqn:Hm.
    + destruct (manifest_halt _ _ _ _ _ Hm) as [-> | [e ->]];
        right; reflexivity.
    + left. reflexivity.
  - rewrite (run_fetch_failed _ _ _ _ _ _ _ _ Hrc).
    destruct (decode_utf8 _); right; reflexivity.
Qed.

(** X2: a run that ends with status 0 had both arguments, retrieved and
    parsed a response, wrote nothing to standard error, and its standard
    output starts with the header. *)
Theorem success_is_clean argv :
  snd (run subprocess_run json_loads py_repr stdout_encodes argv) = Exit 0 ->
  w_err (fst (run subprocess_run json_loads py_repr stdout_encodes argv)) = []
  /\ exists prog vault item rest,
      argv = prog :: vault :: item :: rest
      /\ (exists content,
             retrieved subprocess_run json_loads vault item content)
      /\ exists entries,
          w_out (fst (run subprocess_run json_loads py_repr stdout_encodes
                          argv))
          = header (name_of item rest) ++ entries.
Proof.
  destruct argv as [|prog [|vault [|item rest]]]; try discriminate.
  destruct (decide (returncode (subprocess_run (op_command vault item)) = 0%Z))
    as [Hrc|Hrc].
  - rewrite (run_fetched _ _ _ _ _ _ _ _ Hrc).
    destruct (decode_utf8 _) as [secret|] eqn:Hdec; [|discriminate].
    destruct (strip secret) as [|c s'] eqn:Hstrip; [discriminate|].
    destruct (json_loads secret) as [content|e|e] eqn:Hloads;
      try discriminate.
    destruct (manifest py_repr stdout_encodes _ content _)
      as [w' [h|[]]] eqn:Hm.
    + simpl. intros ->.
      destruct (manifest_halt _ _ _ _ _ Hm) as [? | [e ?]]; discriminate.
    + intros _. destruct (manifest_done _ _ _ _ Hm) as [Hname Herr].
      pose proof (manifest_out py_repr stdout_encodes (name_of item rest)
                    content (after_op vault item [] []) Hname) as [more Hmore].
      rewrite Hm in Hmore. simpl. split; [exact Herr|].
      exists prog, vault, item, rest. split; [reflexivity|]. split.
      * exists content, secret. rewrite Hstrip. repeat split; auto.
      * exists more. exact Hmore.
  - rewrite (run_fetch_failed _ _ _ _ _ _ _ _ Hrc).
    destruct (decode_utf8 _); discriminate.
Qed.

(** X3: a record of objects whose labels are hashable and pairwise
    different is accepted whatever else the objects hold, when standard
    output can encode the lines of the manifest: a missing label, value
    or type is read as [None], and every object whose type is the string
    CONCEALED and whose label is not the string password gets an entry
    made of [str(label)] and [str(value)]. *)
Theorem record_of_objects_manifest prog vault item rest top objs hs :
  retrieved subprocess_run json_loads vault item (PDict top) ->
  assoc (lit "fields") top = Some (PList (map PDict objs)) ->
  label_keys objs = map inr hs ->
  NoDup hs ->
  Forall (fun line => printable stdout_encodes line = true)
         (header (name_of item rest)
          ++ map (fun o =>
                    lit "  " ++ format_value py_repr (get "label" o)
                      ++ lit ": " ++ [DQUOTE]
                      ++ format_value py_repr (get "value" o) ++ [DQUOTE])
                 (filter (fun o => concealed o = true) objs)) ->
  run subprocess_run json_loads py_repr stdout_encodes
      (prog :: vault :: item :: rest)
  = (after_op vault item
       (header (name_of item rest)
        ++ map (fun o =>
                  lit "  " ++ format_value py_repr (get "label" o) ++ lit ": "
                    ++ [DQUOTE] ++ format_value py_repr (get "value" o)
                    ++ [DQUOTE])
               (filter (fun o => concealed o = true) objs))
       [],
     Exit 0).
Proof.
  intros Hret Hf Hkeys Hnd Hlines.
  exact (run_objects _ _ _ _ _ _ _ Hret Hf Hkeys Hnd Hlines).
Qed.

(** X4: a concealed field that has no value is not rejected: when
    standard output can encode the lines of the manifest, its entry shows
    the word None between the double quotes. *)
Theorem missing_value_printed_as_None prog vault item rest top objs hs o :
  retrieved subprocess_run json_loads vault item (PDict top) ->
  assoc (lit "fields") top = Some (PList (map PDict objs)) ->
  label_keys objs = map inr hs ->
  NoDup hs ->
  Forall (fun line => printable stdout_encodes line = true)
         (header (name_of item rest) ++ object_entries py_repr objs) ->
  o ∈ objs ->
  concealed o = true ->
  assoc (lit "value") o = None ->
  (lit "  " ++ format_value py_repr (get "label" o) ++ lit ": "
     ++ [DQUOTE] ++ lit "None" ++ [DQUOTE])
    ∈ w_out (fst (run subprocess_run json_loads py_repr stdout_encodes
                      (prog :: vault :: item :: rest)))
  /\ snd (run subprocess_run json_loads py_repr stdout_encodes
              (prog :: vault :: item :: rest)) = Exit 0.
Proof.
  intros Hret Hf Hkeys Hnd Hlines Hin Hc Hv.
  rewrite (run_objects _ _ _ _ _ _ _ Hret Hf Hkeys Hnd Hlines).
  split; [|reflexivity]. cbn [fst w_out after_op].
  apply list_elem_of_In, in_or_app. right. unfold object_entries.
  apply in_map_iff. exists o. split.
  - unfold get at 2. rewrite Hv. reflexivity.
  - apply list_elem_of_In, list_elem_of_filter. auto.
Qed.

(** X5: for a record of objects with hashable labels, under a name and
    with entries that standard output can encode, the run succeeds
    exactly when the labels are pairwise different. *)
Theorem validation_accepts_exactly_distinct_labels
        prog vault item rest top objs hs :
  retrieved subprocess_run json_loads vault item (PDict top) ->
  assoc (lit "fields") top = Some (PList (map PDict objs)) ->
  label_keys objs = map inr hs ->
  Forall (fun line => printable stdout_encodes line = true)
         (header (name_of item rest) ++ object_entries py_repr objs) ->
  (snd (run subprocess_run json_loads py_repr stdout_encodes
            (prog :: vault :: item :: rest))
   = Exit 0
   <-> NoDup hs).
Proof.
  intros Hret Hf Hkeys Hlines.
  destruct (first_repeat hs) as [Hnd | (pre_h & k & post_h & Hsplit & Hnd & Hin)].
  - split; [intros _; exact Hnd|]. intros _.
    rewrite (run_objects _ _ _ _ _ _ _ Hret Hf Hkeys Hnd Hlines).
    reflexivity.
  - split.
    + rewrite Hsplit in Hkeys.
      destruct (label_keys_split _ _ _ _ Hkeys)
        as (pre & o & post & -> & Hpre & Ho).
      rewrite map_app in Hf. simpl in Hf.
      rewrite (run_duplicate _ _ _ _ _ _ _ _ _ _ _ _ _ _
                 Hret Hf Hpre Hnd Ho Hin).
      destruct (printable _ _); discriminate.
    + rewrite Hsplit. intros Hall. exfalso.
      apply NoDup_app in Hall as (_ & Hdisj & _).
      apply (Hdisj k Hin). left.
Qed.

(** X6: a field without a label is filed under [None]: a second field
    without a label (or with a null label) ends the run with the
    duplicate-key diagnostic for None.  (When standard output cannot
    encode the name, the run ends at the line of the name.) *)
Theorem unlabelled_fields_collide prog vault item rest top pre o post hs :
  retrieved subprocess_run json_loads vault item (PDict top) ->
  assoc (lit "fields") top = Some (PList (map PDict pre ++ PDict o :: post)) ->
  label_keys pre = map inr hs ->
  NoDup hs ->
  HNone ∈ hs ->
  assoc (lit "label") o = None ->
  run subprocess_run json_loads py_repr stdout_encodes
      (prog :: vault :: item :: rest)
  = if printable stdout_encodes (name_of item rest)
    then (after_op vault item (header (name_of item rest))
            [lit "Error: duplicate key: None"], Exit 1)
    else name_not_printed vault item.
Proof.
  intros Hret Hf Hkeys Hnd Hin Hl.
  assert (Hk : hash_key (get "label" o) = inr HNone)
    by (unfold get; rewrite Hl; reflexivity).
  rewrite (run_duplicate _ _ _ _ _ _ _ _ _ _ _ _ _ _
             Hret Hf Hkeys Hnd Hk Hin).
  unfold dup_message, get. rewrite Hl. reflexivity.
Qed.

(** X7: a field whose label is a list or an object cannot be looked up
    in [dupecheck]: the run ends with an uncaught [TypeError] after the
    header, without a diagnostic of the script.  (When standard output
    cannot encode the name, the run ends at the line of the name.) *)
Theorem unhashable_label_raises_type_error
        prog vault item rest top pre o post hs :
  retrieved subprocess_run json_loads vault item (PDict top) ->
  assoc (lit "fields") top = Some (PList (map PDict pre ++ PDict o :: post)) ->
  label_keys pre = map inr hs ->
  NoDup hs ->
  (exists l, assoc (lit "label") o = Some (PList l))
  \/ (exists d, assoc (lit "label") o = Some (PDict d)) ->
  run subprocess_run json_loads py_repr stdout_encodes
      (prog :: vault :: item :: rest)
  = if printable stdout_encodes (name_of item rest)
    then (after_op vault item (header (name_of item rest)) [],
          Raise TypeError)
    else name_not_printed vault item.
Proof.
  intros Hret Hf Hkeys Hnd Hl.
  assert (Hk : hash_key (get "label" o) = inl TypeError)
    by (unfold get; destruct Hl as [[l ->] | [d ->]]; reflexivity).
  rewrite (run_retrieved _ _ _ _ _ _ _ _ _ Hret), manifest_header.
  destruct (printable stdout_encodes (name_of item rest)); [|reflexivity].
  unfold bind at 1. unfold check_duplicates, bind, subscript.
  rewrite Hf. simpl.
  rewrite (dupecheck_loop_unhashable pre o post hs _ _ Hkeys Hnd Hk).
  reflexivity.
Qed.

(** X8: after a status 0 and an output that is UTF-8, the run ends with
    the empty-response diagnostic exactly when the output is blank. *)
Theorem empty_diagnostic_only_for_blank prog vault item rest secret :
  returncode (subprocess_run (op_command vault item)) = 0%Z ->
  decode_utf8 (stdout (subprocess_run (op_command vault item))) = Some secret ->
  (run subprocess_run json_loads py_repr stdout_encodes
       (prog :: vault :: item :: rest)
   = (after_op vault item []
        [lit "Error: Empty response from 1Password for item '"
           ++ item ++ lit "'"], Exit 1)
   <-> Forall (fun c => isspace c = true) secret).
Proof.
  intros Hrc Hdec. rewrite (run_fetched _ _ _ _ _ _ _ _ Hrc), Hdec.
  destruct (strip secret) as [|c s'] eqn:Hstrip.
  - split; [intros _; exact (strip_nil _ Hstrip) | reflexivity].
  - split.
    + destruct (json_loads secret) as [content|e|e]; try discriminate.
      rewrite manifest_header.
      destruct (printable stdout_encodes (name_of item rest));
        [|discriminate].
      unfold bind at 1.
      pose proof (check_duplicates_out py_repr content
                    {| w_out := w_out (after_op vault item [] [])
                                ++ header (name_of item rest);
                       w_err := w_err (after_op vault item [] []);
                       w_spawned := w_spawned (after_op vault item [] []) |})
        as Hdup.
      destruct (check_duplicates py_repr content _) as [w1 [h|d]];
        cbn [fst w_out after_op] in Hdup.
      * simpl. intros [= Hw _]. rewrite Hw in Hdup. discriminate.
      * destruct (emit_fields_out py_repr stdout_encodes content w1)
          as [more Hmore].
        destruct (emit_fields py_repr stdout_encodes content w1)
          as [w2 [h|[]]]; cbn [fst] in Hmore; simpl;
          intros [= Hw _]; rewrite Hw, Hdup in Hmore; discriminate.
    + intros Hblank. rewrite (strip_blank _ Hblank) in Hstrip. discriminate.
Qed.

(** X9: when [op] fails and its error stream is ASCII, the stream is
    echoed byte for byte after the line that names item and vault. *)
Theorem ascii_error_stream_is_echoed prog vault item rest :
  returncode (subprocess_run (op_command vault item)) <> 0%Z ->
  Forall (fun b => (Byte.to_N b < 128)%N)
         (stderr (subprocess_run (op_command vault item))) ->
  run subprocess_run json_loads py_repr stdout_encodes
      (prog :: vault :: item :: rest)
  = (after_op vault item []
       [lit "Error fetching item '" ++ item ++ lit "' from vault '"
          ++ vault ++ lit "':";
        map Byte.to_N (stderr (subprocess_run (op_command vault item)))],
     Exit 1).
Proof.
  intros Hrc Hascii.
  rewrite (run_fetch_failed _ _ _ _ _ _ _ _ Hrc), (decode_utf8_ascii _ Hascii).
  reflexivity.
Qed.

(** X10: the raw response shown after a parse error is a prefix of the
    response of at most 500 characters, and the whole response when it
    has no more than 500. *)
Theorem raw_response_is_truncated prog vault item rest secret e :
  returncode (subprocess_run (op_command vault item)) = 0%Z ->
  decode_utf8 (stdout (subprocess_run (op_command vault item))) = Some secret ->
  strip secret <> [] ->
  json_loads secret = DecodeError e ->
  exists shown rest_of_response,
    w_err (fst (run subprocess_run json_loads py_repr stdout_encodes
                    (prog :: vault :: item :: rest)))
    = [lit "Error parsing JSON response: " ++ e;
       lit "Raw response: " ++ shown]
    /\ secret = shown ++ rest_of_response
    /\ length shown <= 500
    /\ (length secret <= 500 -> shown = secret).
Proof.
  intros Hrc Hdec Hne Hloads.
  rewrite (run_fetched _ _ _ _ _ _ _ _ Hrc), Hdec, Hloads.
  destruct (strip secret); [contradiction|].
  exists (take 500 secret), (drop 500 secret). split; [reflexivity|].
  split; [symmetry; apply take_drop|]. split.
  - rewrite length_take. lia.
  - intros Hlen. apply take_ge. exact Hlen.
Qed.

(** X11: the name of the program and the arguments after the third have
    no influence on the run. *)
Theorem program_name_and_extra_arguments_ignored
        prog prog' vault item secret_name more more' :
  run subprocess_run json_loads py_repr stdout_encodes
      (prog :: vault :: item :: secret_name :: more)
  = run subprocess_run json_loads py_repr stdout_encodes
        (prog' :: vault :: item :: secret_name :: more').
Proof. rewrite !run_with_arguments. reflexivity. Qed.

(** X12: when fields is an empty list, an empty string or an empty
    object, both loops run over nothing: the run succeeds and prints the
    bare header.  (When standard output cannot encode the name, the run
    ends at the line of the name.) *)
Theorem empty_fields_bare_manifest prog vault item rest top f :
  retrieved subprocess_run json_loads vault item (PDict top) ->
  assoc (lit "fields") top = Some f ->
  f = PList [] \/ f = PStr [] \/ f = PDict [] ->
  run subprocess_run json_loads py_repr stdout_encodes
      (prog :: vault :: item :: rest)
  = if printable stdout_encodes (name_of item rest)
    then (after_op vault item
            [lit "apiVersion: v1"; lit "kind: Secret"; lit "metadata:";
             lit "  name: " ++ name_of item rest; lit "stringData:"] [],
          Exit 0)
    else name_not_printed vault item.
Proof.
  intros Hret Hf Hempty.
  rewrite (run_retrieved _ _ _ _ _ _ _ _ _ Hret), manifest_header.
  destruct (printable stdout_encodes (name_of item rest)); [|reflexivity].
  unfold bind at 1. unfold check_duplicates, emit_fields, bind, subscript.
  rewrite Hf. destruct Hempty as [-> | [-> | ->]]; reflexivity.
Qed.

End Further.

(** ** The further properties at concrete runs *)

Section FurtherRuns.
Import Py Proc Json Script Example.

Lemma retrieved_loose :
  retrieved (op_answers 0 loose_json []) loads (lit "v1") (lit "db-creds")
            (PDict [(lit "fields", PList (map PDict loose_objects))]).
Proof.
  exists (text_of loose_json). vm_compute.
  repeat split; discriminate.
Qed.

Lemma retrieved_unlabelled :
  retrieved (op_answers 0 unlabelled_json []) loads (lit "v1") (lit "db-creds")
            (PDict [(lit "fields",
                     PList (map PDict [[(lit "value", PStr (lit "a"))];
                                       [(lit "label", PStr (lit "x"))]]
                              ++ PDict [(lit "value", PStr (lit "b"))] :: []))]).
Proof.
  exists (text_of unlabelled_json). vm_compute.
  repeat split; discriminate.
Qed.

Lemma retrieved_list_label :
  retrieved (op_answers 0 list_label_json []) loads (lit "v1") (lit "db-creds")
            (PDict [(lit "fields",
                     PList (map PDict [[(lit "label", PStr (lit "x"))]]
                              ++ PDict [(lit "label", PList [PStr (lit "y")])]
                              :: []))]).
Proof.
  exists (text_of list_label_json). vm_compute.
  repeat split; discriminate.
Qed.

Lemma retrieved_empty_list_fields :
  retrieved (op_answers 0 empty_list_fields_json []) loads
            (lit "v1") (lit "db-creds")
            (PDict [(lit "fields", PList [])]).
Proof.
  exists (text_of empty_list_fields_json). vm_compute.
  repeat split; discriminate.
Qed.

Lemma loose_keys :
  label_keys loose_objects
  = map inr [HStr (lit "a"); HNone; HInt 7; HStr (lit "b")].
Proof. reflexivity. Qed.

Lemma loose_keys_distinct :
  NoDup [HStr (lit "a"); HNone; HInt 7; HStr (lit "b")].
Proof. apply (bool_decide_unpack _). vm_compute. exact I. Qed.

Lemma success_is_clean_witness :
  w_err (fst (run (op_answers 0 db_creds_json []) loads any_repr utf8_strict
                  argv_db_creds)) = []
  /\ exists prog vault item rest,
      argv_db_creds = prog :: vault :: item :: rest
      /\ (exists content,
             retrieved (op_answers 0 db_creds_json []) loads vault item content)
      /\ exists entries,
          w_out (fst (run (op_answers 0 db_creds_json []) loads any_repr utf8_strict
                          argv_db_creds))
          = header (name_of item rest) ++ entries.
Proof.
  apply (success_is_clean (op_answers 0 db_creds_json []) loads any_repr utf8_strict
                          argv_db_creds).
  vm_compute. reflexivity.
Defined.

Lemma record_of_objects_manifest_witness :
  run (op_answers 0 loose_json []) loads any_repr utf8_strict argv_db_creds
  = (after_op (lit "v1") (lit "db-creds")
       (header (lit "db-creds")
        ++ [lit "  a: " ++ [DQUOTE] ++ lit "None" ++ [DQUOTE];
            lit "  None: " ++ [DQUOTE] ++ lit "v" ++ [DQUOTE];
            lit "  7: " ++ [DQUOTE] ++ lit "True" ++ [DQUOTE]])
       [],
     Exit 0).
Proof.
  apply (record_of_objects_manifest
           (op_answers 0 loose_json []) loads any_repr utf8_strict
           (lit "op_to_yaml.py") (lit "v1") (lit "db-creds") []
           [(lit "fields", PList (map PDict loose_objects))] loose_objects
           [HStr (lit "a"); HNone; HInt 7; HStr (lit "b")]).
  - exact retrieved_loose.
  - reflexivity.
  - exact loose_keys.
  - exact loose_keys_distinct.
  - vm_compute. repeat constructor.
Defined.

Lemma missing_value_printed_as_None_witness :
  (lit "  a: " ++ [DQUOTE] ++ lit "None" ++ [DQUOTE])
    ∈ w_out (fst (run (op_answers 0 loose_json []) loads any_repr utf8_strict
                      argv_db_creds))
  /\ snd (run (op_answers 0 loose_json []) loads any_repr utf8_strict argv_db_creds)
     = Exit 0.
Proof.
  apply (missing_value_printed_as_None
           (op_answers 0 loose_json []) loads any_repr utf8_strict
           (lit "op_to_yaml.py") (lit "v1") (lit "db-creds") []
           [(lit "fields", PList (map PDict loose_objects))] loose_objects
           [HStr (lit "a"); HNone; HInt 7; HStr (lit "b")]
           [(lit "label", PStr (lit "a")); (lit "type", PStr (lit "CONCEALED"))]).
  - exact retrieved_loose.
  - reflexivity.
  - exact loose_keys.
  - exact loose_keys_distinct.
  - vm_compute. repeat constructor.
  - left.
  - reflexivity.
  - reflexivity.
Defined.

Lemma retrieved_float_label :
  retrieved (op_answers 0 float_label_json []) loads (lit "v1") (lit "db-creds")
            (PDict [(lit "fields",
                     PList (map PDict
                              [[(lit "label", PInt 1);
                                (lit "value", PStr (lit "a"))];
                               [(lit "label",
                                 PFloat (S754_finite false 4503599627370496 (-52)));
                                (lit "value", PStr (lit "b"))]]))]).
Proof.
  exists (text_of float_label_json). vm_compute.
  repeat split; discriminate.
Qed.

Lemma validation_accepts_exactly_distinct_labels_witness :
  (snd (run (op_answers 0 float_label_json []) loads any_repr utf8_strict
            argv_db_creds) = Exit 0
   <-> NoDup [HInt 1; HInt 1])
  /\ (snd (run (op_answers 0 loose_json []) loads any_repr utf8_strict
               argv_db_creds)
      = Exit 0
      <-> NoDup [HStr (lit "a"); HNone; HInt 7; HStr (lit "b")]).
Proof.
  split.
  - apply (validation_accepts_exactly_distinct_labels
             (op_answers 0 float_label_json []) loads any_repr utf8_strict
             (lit "op_to_yaml.py") (lit "v1") (lit "db-creds") []
             [(lit "fields",
               PList (map PDict
                        [[(lit "label", PInt 1);
                          (lit "value", PStr (lit "a"))];
                         [(lit "label",
                           PFloat (S754_finite false 4503599627370496 (-52)));
                          (lit "value", PStr (lit "b"))]]))]
             [[(lit "label", PInt 1); (lit "value", PStr (lit "a"))];
              [(lit "label",
                PFloat (S754_finite false 4503599627370496 (-52)));
               (lit "value", PStr (lit "b"))]]).
    + exact retrieved_float_label.
    + reflexivity.
    + reflexivity.
    + vm_compute. repeat constructor.
  - apply (validation_accepts_exactly_distinct_labels
             (op_answers 0 loose_json []) loads any_repr utf8_strict
             (lit "op_to_yaml.py") (lit "v1") (lit "db-creds") []
             [(lit "fields", PList (map PDict loose_objects))] loose_objects).
    + exact retrieved_loose.
    + reflexivity.
    + exact loose_keys.
    + vm_compute. repeat constructor.
Defined.

Lemma unlabelled_fields_collide_witness :
  run (op_answers 0 unlabelled_json []) loads any_repr utf8_strict argv_db_creds
  = (after_op (lit "v1") (lit "db-creds") (header (lit "db-creds"))
       [lit "Error: duplicate key: None"], Exit 1).
Proof.
  apply (unlabelled_fields_collide
           (op_answers 0 unlabelled_json []) loads any_repr utf8_strict
           (lit "op_to_yaml.py") (lit "v1") (lit "db-creds") []
           [(lit "fields",
             PList (map PDict [[(lit "value", PStr (lit "a"))];
                               [(lit "label", PStr (lit "x"))]]
                      ++ PDict [(lit "value", PStr (lit "b"))] :: []))]
           [[(lit "value", PStr (lit "a"))]; [(lit "label", PStr (lit "x"))]]
           [(lit "value", PStr (lit "b"))] []
           [HNone; HStr (lit "x")]).
  - exact retrieved_unlabelled.
  - reflexivity.
  - reflexivity.
  - apply (bool_decide_unpack _). vm_compute. exact I.
  - left.
  - reflexivity.
Defined.

Lemma unhashable_label_raises_type_error_witness :
  run (op_answers 0 list_label_json []) loads any_repr utf8_strict argv_db_creds
  = (after_op (lit "v1") (lit "db-creds") (header (lit "db-creds")) [],
     Raise TypeError).
Proof.
  apply (unhashable_label_raises_type_error
           (op_answers 0 list_label_json []) loads any_repr utf8_strict
           (lit "op_to_yaml.py") (lit "v1") (lit "db-creds") []
           [(lit "fields",
             PList (map PDict [[(lit "label", PStr (lit "x"))]]
                      ++ PDict [(lit "label", PList [PStr (lit "y")])] :: []))]
           [[(lit "label", PStr (lit "x"))]]
           [(lit "label", PList [PStr (lit "y")])] []
           [HStr (lit "x")]).
  - exact retrieved_list_label.
  - reflexivity.
  - reflexivity.
  - apply (bool_decide_unpack _). vm_compute. exact I.
  - left. exists [PStr (lit "y")]. reflexivity.
Defined.

Lemma empty_diagnostic_only_for_blank_witness :
  (run (op_answers 0 [x20; x0a] []) loads any_repr utf8_strict argv_db_creds
   = (after_op (lit "v1") (lit "db-creds") []
        [lit "Error: Empty response from 1Password for item '"
           ++ lit "db-creds" ++ lit "'"], Exit 1)
   <-> Forall (fun c => isspace c = true) [32%N; 10%N])
  /\ (run (op_answers 0 (ascii_bytes "not json") []) loads any_repr utf8_strict
          argv_db_creds
      = (after_op (lit "v1") (lit "db-creds") []
           [lit "Error: Empty response from 1Password for item '"
              ++ lit "db-creds" ++ lit "'"], Exit 1)
      <-> Forall (fun c => isspace c = true) (lit "not json")).
Proof.
  split.
  - apply (empty_diagnostic_only_for_blank
             (op_answers 0 [x20; x0a] []) loads any_repr utf8_strict
             (lit "op_to_yaml.py") (lit "v1") (lit "db-creds") []
             [32%N; 10%N]); reflexivity.
  - apply (empty_diagnostic_only_for_blank
             (op_answers 0 (ascii_bytes "not json") []) loads any_repr utf8_strict
             (lit "op_to_yaml.py") (lit "v1") (lit "db-creds") []
             (lit "not json")); reflexivity.
Defined.

Lemma ascii_error_stream_is_echoed_witness :
  run (op_answers 1 [] (ascii_bytes "[ERROR] item not found")) loads any_repr utf8_strict
      argv_db_creds
  = (after_op (lit "v1") (lit "db-creds") []
       [lit "Error fetching item '" ++ lit "db-creds" ++ lit "' from vault '"
          ++ lit "v1" ++ lit "':";
        map Byte.to_N (ascii_bytes "[ERROR] item not found")],
     Exit 1).
Proof.
  apply (ascii_error_stream_is_echoed
           (op_answers 1 [] (ascii_bytes "[ERROR] item not found"))
           loads any_repr utf8_strict (lit "op_to_yaml.py") (lit "v1") (lit "db-creds") []).
  - simpl. discriminate.
  - simpl. repeat constructor.
Defined.

Lemma raw_response_is_truncated_witness :
  exists shown rest_of_response,
    w_err (fst (run (op_answers 0 (ascii_bytes "not json") []) loads any_repr utf8_strict
                    argv_db_creds))
    = [lit "Error parsing JSON response: "
         ++ lit "Expecting value: line 1 column 1 (char 0)";
       lit "Raw response: " ++ shown]
    /\ lit "not json" = shown ++ rest_of_response
    /\ length shown <= 500
    /\ (length (lit "not json") <= 500 -> shown = lit "not json").
Proof.
  apply (raw_response_is_truncated
           (op_answers 0 (ascii_bytes "not json") []) loads any_repr utf8_strict
           (lit "op_to_yaml.py") (lit "v1") (lit "db-creds") []
           (lit "not json")
           (lit "Expecting value: line 1 column 1 (char 0)")).
  - reflexivity.
  - reflexivity.
  - vm_compute. discriminate.
  - vm_compute. reflexivity.
Defined.

Lemma empty_fields_bare_manifest_witness :
  run (op_answers 0 empty_list_fields_json []) loads any_repr utf8_strict argv_db_creds
  = (after_op (lit "v1") (lit "db-creds")
       [lit "apiVersion: v1"; lit "kind: Secret"; lit "metadata:";
        lit "  name: " ++ name_of (lit "db-creds") []; lit "stringData:"] [],
     Exit 0).
Proof.
  apply (empty_fields_bare_manifest
           (op_answers 0 empty_list_fields_json []) loads any_repr utf8_strict
           (lit "op_to_yaml.py") (lit "v1") (lit "db-creds") []
           [(lit "fields", PList [])] (PList [])).
  - exact retrieved_empty_list_fields.
  - reflexivity.
  - left. reflexivity.
Defined.

End FurtherRuns.
